(** * BacktestGPT: the chat front end and the backtest pipeline

    The development has two parts.

    - [JS], [ChatPage] and [Page] embed the two React pages of the
      repository: the chat page (the component with [chatHistory]) and
      [app/src/app/page.tsx].  React state is a record, each handler is a
      function on that record, and the [await] in [handleSubmit] splits the
      handler into the part that sends the request and the part that runs
      when the response arrives.
    - [Backend] models the signal engine, the simulator, the drawdown series
      and the metrics calculator of the Python backend
      ([backend/backtest_loop.py], [backend/main.py]), following the written
      specification, over exact rationals. *)

From Stdlib Require Import List String Ascii Bool Arith ZArith QArith Qminmax Qabs Lia Lqa.
From Stdlib Require Import DecimalString Decimal.
From Stdlib Require Strings.Byte.
Import ListNotations.

Set Implicit Arguments.
Set Warnings "-register-all".
Close Scope Q_scope.

(* ===================================================================== *)
(** * JavaScript values *)
(* ===================================================================== *)

Module JS.

(** ** Strings *)

(** A string is the sequence of its UTF-16 code units. *)
Inductive jsstring : Type :=
| Empty
| Unit (c : N) (rest : jsstring).

Declare Scope js_scope.
Delimit Scope js_scope with js.
Bind Scope js_scope with jsstring.

(** A literal stands for its ASCII characters, one code unit each. *)
Fixpoint of_bytes (l : list Byte.byte) : option jsstring :=
  match l with
  | [] => Some Empty
  | b :: rest =>
      if N.ltb (Byte.to_N b) 128
      then option_map (Unit (Byte.to_N b)) (of_bytes rest)
      else None
  end.

Fixpoint to_bytes (s : jsstring) : option (list Byte.byte) :=
  match s with
  | Empty => Some []
  | Unit c rest =>
      if N.ltb c 128
      then match Byte.of_N c, to_bytes rest with
           | Some b, Some l => Some (b :: l)
           | _, _ => None
           end
      else None
  end.

String Notation jsstring of_bytes to_bytes : js_scope.

Fixpoint append (s t : jsstring) : jsstring :=
  match s with
  | Empty => t
  | Unit c rest => Unit c (append rest t)
  end.

Infix "++" := append (right associativity, at level 60) : js_scope.

(** [s === t] on strings. *)
Fixpoint eqb (s t : jsstring) : bool :=
  match s, t with
  | Empty, Empty => true
  | Unit c s', Unit d t' => N.eqb c d && eqb s' t'
  | _, _ => false
  end.

Fixpoint units (s : jsstring) : list N :=
  match s with
  | Empty => []
  | Unit c rest => c :: units rest
  end.

(** The code units of an ASCII text, such as a run of decimal digits. *)
Fixpoint of_string (s : string) : jsstring :=
  match s with
  | EmptyString => Empty
  | String c rest => Unit (N_of_ascii c) (of_string rest)
  end.

(** [Array.prototype.join] on strings. *)
Fixpoint join (sep : jsstring) (parts : list jsstring) : jsstring :=
  match parts with
  | [] => Empty
  | [x] => x
  | x :: rest => append x (append sep (join sep rest))
  end.

(** The code units that [String.prototype.trim] strips: WhiteSpace (TAB,
    VT, FF, SP, NBSP, ZWNBSP and the other characters of category Zs) and
    LineTerminator (LF, CR, LS, PS).  All of them lie in the basic plane,
    so each is one code unit. *)
Definition is_space (c : N) : bool :=
  (N.leb 9 c && N.leb c 13)            (* TAB, LF, VT, FF, CR *)
  || N.eqb c 32                        (* SP *)
  || N.eqb c 160                       (* U+00A0 NBSP *)
  || N.eqb c 5760                      (* U+1680 *)
  || (N.leb 8192 c && N.leb c 8202)    (* U+2000 .. U+200A *)
  || N.eqb c 8232 || N.eqb c 8233      (* U+2028 LS, U+2029 PS *)
  || N.eqb c 8239                      (* U+202F *)
  || N.eqb c 8287                      (* U+205F *)
  || N.eqb c 12288                     (* U+3000 *)
  || N.eqb c 65279.                    (* U+FEFF ZWNBSP *)

Fixpoint trimStart (s : jsstring) : jsstring :=
  match s with
  | Empty => Empty
  | Unit c rest => if is_space c then trimStart rest else s
  end.

Fixpoint trimEnd (s : jsstring) : jsstring :=
  match s with
  | Empty => Empty
  | Unit c rest =>
      match trimEnd rest with
      | Empty => if is_space c then Empty else Unit c Empty
      | kept => Unit c kept
      end
  end.

Definition trim (s : jsstring) : jsstring := trimEnd (trimStart s).

(** A string of white space only. *)
Definition blank (s : jsstring) : Prop :=
  Forall (fun c => is_space c = true) (units s).

(** ** Numbers *)

Local Open Scope js_scope.

(** The pages never compute with numbers; they test them for truthiness and
    print them.  IEEE doubles and their printing routines are therefore an
    interface of the runtime. *)
Class JSNumber : Type := {
  number : Type;
  (** [ToBoolean] is false exactly on [0], [-0] and [NaN]. *)
  num_falsy : number -> bool;
  (** [Number.prototype.toString()]. *)
  num_toString : number -> jsstring;
  (** [Number.prototype.toFixed(2)]. *)
  num_toFixed2 : number -> jsstring
}.

(** An instance for the examples: the integers of magnitude below [2^53],
    each of which is a double that prints as its decimal digits. *)
Definition safe_bound : Z := 9007199254740992.

Record SafeInteger : Type := {
  integer : Z;
  is_safe : Z.ltb (Z.abs integer) safe_bound = true
}.

Definition zero : SafeInteger := {| integer := 0; is_safe := eq_refl |}.

(** The safe integer [z], and [0] for a [z] out of range. *)
Definition safe (z : Z) : SafeInteger :=
  match Z.ltb (Z.abs z) safe_bound as b
        return Z.ltb (Z.abs z) safe_bound = b -> SafeInteger with
  | true => fun H => {| integer := z; is_safe := H |}
  | false => fun _ => zero
  end eq_refl.

Definition Z_toString (z : Z) : jsstring :=
  of_string (NilZero.string_of_int (Z.to_int z)).

#[export] Instance IntegralNumber : JSNumber := {
  number := SafeInteger;
  num_falsy := fun n => Z.eqb (integer n) 0;
  num_toString := fun n => Z_toString (integer n);
  num_toFixed2 := fun n => Z_toString (integer n) ++ ".00"
}.

(** ** Values *)

Section Values.
Context {N : JSNumber}.

(** A value as [res.json()] yields it, plus [undefined].  The field list of
    [JObj] is the list of own properties in enumeration order, with
    distinct keys. *)
Inductive json : Type :=
| JUndefined
| JNull
| JBool (b : bool)
| JNum (n : number)
| JStr (s : jsstring)
| JArr (items : list json)
| JObj (fields : list (jsstring * json)).

(** [ToBoolean]. *)
Definition truthy (v : json) : bool :=
  match v with
  | JUndefined | JNull => false
  | JBool b => b
  | JNum n => negb (num_falsy n)
  | JStr s => negb (eqb s Empty)
  | JArr _ | JObj _ => true
  end.

Fixpoint lookup (k : jsstring) (fields : list (jsstring * json)) : json :=
  match fields with
  | [] => JUndefined
  | (k', v) :: rest => if eqb k k' then v else lookup k rest
  end.

Fixpoint has_key (k : jsstring) (fields : list (jsstring * json)) : bool :=
  match fields with
  | [] => false
  | (k', _) :: rest => eqb k k' || has_key k rest
  end.

(** [v.k] for the property names the pages read ([conversation], [error],
    [dates], ...), none of which is a built-in property of a string or of
    an array.  Reading a property of [null] or [undefined] throws. *)
Definition prop (v : json) (k : jsstring) : option json :=
  match v with
  | JUndefined | JNull => None
  | JObj fields => Some (lookup k fields)
  | _ => Some JUndefined
  end.

(** [v?.k] *)
Definition opt_prop (v : json) (k : jsstring) : json :=
  match prop v k with
  | Some x => x
  | None => JUndefined
  end.

(** [ToString], as a template literal applies it; [None] is a
    [TypeError].  An object whose own key [toString] holds a parsed value
    has no callable [toString], and [valueOf] does not yield a primitive, so
    the conversion throws; an array is joined, and throws when one of its
    elements does. *)
Fixpoint toString (v : json) : option jsstring :=
  match v with
  | JUndefined => Some "undefined"
  | JNull => Some "null"
  | JBool true => Some "true"
  | JBool false => Some "false"
  | JNum n => Some (num_toString n)
  | JStr s => Some s
  | JArr items =>
      option_map (join ",")
        ((fix each (l : list json) : option (list jsstring) :=
            match l with
            | [] => Some []
            | x :: rest =>
                match match x with
                      | JUndefined | JNull => Some Empty
                      | _ => toString x
                      end, each rest with
                | Some s, Some ss => Some (s :: ss)
                | _, _ => None
                end
            end) items)
  | JObj fields => if has_key "toString" fields then None else Some "[object Object]"
  end.

Fixpoint index_from (A : Type) (i : nat) (l : list A) : list (jsstring * A) :=
  match l with
  | [] => []
  | x :: rest =>
      (of_string (NilZero.string_of_uint (Nat.to_uint i)), x) :: index_from (S i) rest
  end.

(** The code units of a string, each as a string of its own. *)
Fixpoint chars (s : jsstring) : list json :=
  match s with
  | Empty => []
  | Unit c rest => JStr (Unit c Empty) :: chars rest
  end.

(** [Object.entries(v)] for a value that is neither [null] nor [undefined]. *)
Definition Object_entries (v : json) : list (jsstring * json) :=
  match v with
  | JObj fields => fields
  | JArr items => index_from 0 items
  | JStr s => index_from 0 (chars s)
  | _ => []
  end.

End Values.

End JS.

(* ===================================================================== *)
(** * Chart objects and the metric formatter, common to both pages *)
(* ===================================================================== *)

(** Both pages build their chart objects and format metric values with the
    same code; it is embedded once, as functions of [chartData]. *)
Module Charts.
Import JS.
Local Open Scope js_scope.

Section WithNumber.
Context {N : JSNumber}.

Record dataset : Type := {
  label : jsstring;
  data : json;
  borderColor : jsstring;
  backgroundColor : jsstring;
  fill : bool
}.

(** The object handed to [<Line data={...}>]. *)
Record chart : Type := {
  labels : json;
  datasets : list dataset
}.

Record ChartObj : Type := {
  name : jsstring;
  chart_of : chart
}.

(** [chartData.k]; [chartData] is never [null] or [undefined] (see
    [ChatPage_chartData_not_nullish] and [Page_chartData_not_nullish]), so
    the access cannot throw. *)
Definition get (chartData : json) (k : jsstring) : json := opt_prop chartData k.

Definition equityChart (chartData : json) : option chart :=
  if negb (truthy (get chartData "dates")) || negb (truthy (get chartData "equity"))
  then None
  else Some {| labels := get chartData "dates";
               datasets := [ {| label := "Equity Curve";
                                data := get chartData "equity";
                                borderColor := "rgb(59, 130, 246)";
                                backgroundColor := "rgba(59, 130, 246, 0.1)";
                                fill := false |} ] |}.

Definition drawdownChart (chartData : json) : option chart :=
  if negb (truthy (get chartData "dates")) || negb (truthy (get chartData "drawdown"))
  then None
  else Some {| labels := get chartData "dates";
               datasets := [ {| label := "Drawdown (%)";
                                data := get chartData "drawdown";
                                borderColor := "rgb(239, 68, 68)";
                                backgroundColor := "rgba(239, 68, 68, 0.1)";
                                fill := false |} ] |}.

Definition indicatorCharts (chartData : json) : list ChartObj :=
  if negb (truthy (get chartData "indicators")) then []
  else map (fun '(name, values) =>
              {| name := name;
                 chart_of := {| labels := get chartData "dates";
                                datasets := [ {| label := name;
                                                 data := values;
                                                 borderColor := "rgb(34, 197, 94)";
                                                 backgroundColor := "rgba(34, 197, 94, 0.1)";
                                                 fill := false |} ] |} |})
           (Object_entries (get chartData "indicators")).

Definition signalCharts (chartData : json) : list ChartObj :=
  if negb (truthy (get chartData "signals")) then []
  else map (fun '(name, values) =>
              {| name := name;
                 chart_of := {| labels := get chartData "dates";
                                datasets := [ {| label := name;
                                                 data := values;
                                                 borderColor := "rgb(249, 115, 22)";
                                                 backgroundColor := "rgba(249, 115, 22, 0.1)";
                                                 fill := false |} ] |} |})
           (Object_entries (get chartData "signals")).

(** Every chart object a page hands to the chart library. *)
Definition all_charts (chartData : json) : list chart :=
  match equityChart chartData with Some c => [c] | None => [] end ++
  match drawdownChart chartData with Some c => [c] | None => [] end ++
  map chart_of (indicatorCharts chartData) ++
  map chart_of (signalCharts chartData).

(** [formatValue(value, format)].  The declared type of [value] is
    [number | undefined], the run-time value is whatever the response holds:
    [None] stands for the [TypeError] of calling [toFixed] on a value that
    has none, or [toString] on [null] or on a value that has no callable
    [toString]. *)
Definition formatValue (value : json) (format : jsstring) : option jsstring :=
  match value with
  | JUndefined => Some "0.00"
  | _ =>
      if eqb format "currency" then
        match value with
        | JNum n => Some ("$" ++ num_toFixed2 n)
        | _ => None
        end
      else if eqb format "percent" then
        match value with
        | JNum n => Some (num_toFixed2 n ++ "%")
        | _ => None
        end
      else if eqb format "integer" then
        match value with
        | JNull => None
        | _ => toString value
        end
      else
        match value with
        | JNum n => Some (num_toFixed2 n)
        | _ => None
        end
  end.

Record metric : Type := {
  metric_label : jsstring;
  value : json;
  format : jsstring
}.

(** The [metrics] table: [value] is [data?.metrics?.<key>].  The styling
    columns ([type], [className]) are left out. *)
Definition metric_keys : list (jsstring * jsstring * jsstring) :=
  [ ("Starting Value", "start_value", "currency");
    ("Ending Value", "end_value", "currency");
    ("Total Return", "total_return", "percent");
    ("CAGR", "CAGR", "percent");
    ("Max Drawdown", "max_drawdown", "percent");
    ("Sharpe Ratio", "sharpe_ratio", "number");
    ("Sortino Ratio", "sortino_ratio", "number");
    ("Total Trades", "total_trades", "integer");
    ("Win Rate", "win_rate", "percent");
    ("Avg Winning Trade", "avg_winning_trade", "percent");
    ("Avg Losing Trade", "avg_losing_trade", "percent");
    ("Profit Factor", "profit_factor", "number");
    ("Years", "years", "number") ].

Definition metrics (data : json) : list metric :=
  map (fun '(l, key, f) =>
         {| metric_label := l;
            value := opt_prop (opt_prop data "metrics") key;
            format := f |})
      metric_keys.

(** The text of each cell of the metrics grid. *)
Definition metric_cells (data : json) : list (jsstring * option jsstring) :=
  map (fun m => (metric_label m, formatValue (value m) (format m))) (metrics data).

End WithNumber.
End Charts.

(* ===================================================================== *)
(** * The chat page *)
(* ===================================================================== *)

Module ChatPage.
Import JS.
Local Open Scope js_scope.

Inductive Role : Type := user | assistant.

Definition Role_name (r : Role) : jsstring :=
  match r with user => "user" | assistant => "assistant" end.

Section WithNumber.
Context {N : JSNumber}.

(** [content] is typed [string]; the clarification branch stores
    [json.message] in it unconverted, so at run time it holds a value. *)
Record ChatMessage : Type := {
  role : Role;
  content : json;
  timestamp : Z
}.

(** The [useState] cells of [Home], and the callbacks queued by
    [setTimeout] with the response each one captured. *)
Record state : Type := {
  data : json;
  loading : bool;
  processingBacktest : bool;
  nlInput : jsstring;
  chatHistory : list ChatMessage;
  timeouts : list json
}.

Definition greeting (now : Z) : ChatMessage :=
  {| role := assistant;
     content := JStr "Hi! I'll help you create and backtest a trading strategy. What would you like to backtest?";
     timestamp := now |}.

Definition initial (now : Z) : state :=
  {| data := JNull; loading := false; processingBacktest := false;
     nlInput := Empty; chatHistory := [greeting now]; timeouts := [] |}.

Definition setData (v : json) (st : state) : state :=
  {| data := v; loading := loading st; processingBacktest := processingBacktest st;
     nlInput := nlInput st; chatHistory := chatHistory st; timeouts := timeouts st |}.

Definition setLoading (b : bool) (st : state) : state :=
  {| data := data st; loading := b; processingBacktest := processingBacktest st;
     nlInput := nlInput st; chatHistory := chatHistory st; timeouts := timeouts st |}.

Definition setProcessingBacktest (b : bool) (st : state) : state :=
  {| data := data st; loading := loading st; processingBacktest := b;
     nlInput := nlInput st; chatHistory := chatHistory st; timeouts := timeouts st |}.

Definition setNlInput (s : jsstring) (st : state) : state :=
  {| data := data st; loading := loading st; processingBacktest := processingBacktest st;
     nlInput := s; chatHistory := chatHistory st; timeouts := timeouts st |}.

(** [setChatHistory(prev => [...prev, m])] *)
Definition appendMessage (m : ChatMessage) (st : state) : state :=
  {| data := data st; loading := loading st; processingBacktest := processingBacktest st;
     nlInput := nlInput st; chatHistory := chatHistory st ++ [m]; timeouts := timeouts st |}.

(** [setTimeout(() => { setData(json); setProcessingBacktest(false) }, 500)] *)
Definition setTimeout (captured : json) (st : state) : state :=
  {| data := data st; loading := loading st; processingBacktest := processingBacktest st;
     nlInput := nlInput st; chatHistory := chatHistory st;
     timeouts := timeouts st ++ [captured] |}.

Definition handleInputChange (value : jsstring) (st : state) : state :=
  setNlInput value st.

(** One element of [conversation_history]. *)
Definition history_entry (msg : ChatMessage) : json :=
  JObj [ ("role", JStr (Role_name (role msg))); ("content", content msg) ].

(** The object given to [JSON.stringify] for the request body. *)
Definition request_body (currentInput : jsstring) (history : list ChatMessage) : json :=
  JObj [ ("input", JStr currentInput);
         ("conversation_history", JArr (map history_entry history)) ].

(** [handleSubmit] up to the [await fetch(...)]: [None] is the early
    return on a blank input; otherwise the new state and the body of the
    request posted to [/natural_backtest].  The handler is the closure of
    the latest render, so its [nlInput] and [chatHistory] are those of the
    state. *)
Definition handleSubmit_send (now : Z) (st : state) : option (state * json) :=
  if eqb (trim (nlInput st)) Empty then None
  else
    let userMessage := {| role := user; content := JStr (nlInput st); timestamp := now |} in
    let currentInput := nlInput st in
    Some (setNlInput Empty (setLoading true (appendMessage userMessage st)),
          request_body currentInput (chatHistory st)).

(** What [await fetch(...)] followed by [await res.json()] produces. *)
Inductive fetched : Type :=
| Rejected
| Resolved (json : JS.json).

Definition connection_error (now : Z) : ChatMessage :=
  {| role := assistant;
     content := JStr "Sorry, I encountered a connection error. Please try again.";
     timestamp := now |}.

(** The test of the first branch, [json.conversation && json.needs_clarification]. *)
Definition is_clarification (json : JS.json) : bool :=
  truthy (opt_prop json "conversation") && truthy (opt_prop json "needs_clarification").

(** The body of the [try] after the response has arrived; [None] when it
    throws, which only the conversion of [json.error] in the template
    literal can do, before any state is set. *)
Definition on_json (now : Z) (json : JS.json) (st : state) : option state :=
  if is_clarification json then
    let assistantMessage :=
      {| role := assistant; content := opt_prop json "message"; timestamp := now |} in
    Some (setData JNull (appendMessage assistantMessage st))
  else if truthy (opt_prop json "error") then
    match toString (opt_prop json "error") with
    | Some text =>
        let errorMessage :=
          {| role := assistant;
             content := JStr ("I encountered an issue: " ++ text);
             timestamp := now |} in
        Some (appendMessage errorMessage st)
    | None => None
    end
  else
    let successMessage :=
      {| role := assistant;
         content := JStr "Great! I've run your backtest. Here are the results:";
         timestamp := now |} in
    Some (setTimeout json (setProcessingBacktest true (appendMessage successMessage st))).

(** [handleSubmit] from the [await] on: a rejected promise, the [TypeError]
    of [json.conversation] on a [null] body, or a throw from the body of
    the [try] lands in [catch]; [finally] clears [loading]. *)
Definition handleSubmit_receive (now : Z) (r : fetched) (st : state) : state :=
  setLoading false
    match r with
    | Rejected => appendMessage (connection_error now) st
    | Resolved json =>
        match prop json "conversation" with
        | None => appendMessage (connection_error now) st
        | Some _ =>
            match on_json now json st with
            | Some st' => st'
            | None => appendMessage (connection_error now) st
            end
        end
    end.

(** The oldest pending [setTimeout] callback runs. *)
Definition timeout_fires (st : state) : state :=
  match timeouts st with
  | [] => st
  | captured :: rest =>
      let st' := setProcessingBacktest false (setData captured st) in
      {| data := data st'; loading := loading st';
         processingBacktest := processingBacktest st';
         nlInput := nlInput st'; chatHistory := chatHistory st'; timeouts := rest |}
  end.

(** What can happen to the page. *)
Inductive event : Type :=
| InputChange (value : jsstring)
| Submit (now : Z)
| Response (now : Z) (r : fetched)
| TimeoutFires.

Definition step (st : state) (e : event) : state :=
  match e with
  | InputChange v => handleInputChange v st
  | Submit now =>
      match handleSubmit_send now st with
      | Some (st', _) => st'
      | None => st
      end
  | Response now r => handleSubmit_receive now r st
  | TimeoutFires => timeout_fires st
  end.

Definition run (st : state) (events : list event) : state := fold_left step events st.

(** [data?.chart_data ?? {}] *)
Definition chartData (data : json) : json :=
  match opt_prop data "chart_data" with
  | JUndefined | JNull => JObj []
  | v => v
  end.

(** The results block is rendered under
    [!loading && !processingBacktest && data]. *)
Definition results_visible (st : state) : bool :=
  negb (loading st) && negb (processingBacktest st) && truthy (data st).

(** The charts on screen. *)
Definition charts (st : state) : list Charts.chart :=
  if results_visible st then Charts.all_charts (chartData (data st)) else [].

(** The responses that reach the last branch of [handleSubmit], the one
    that queues [setData(json)]. *)
Definition taken_as_results (json : JS.json) : bool :=
  match prop json "conversation" with
  | None => false
  | Some _ => negb (is_clarification json) && negb (truthy (opt_prop json "error"))
  end.

(** [disabled={loading}] on the text input. *)
Definition input_disabled (st : state) : bool := loading st.

(** [disabled={loading || !nlInput.trim()}] on the Send button. *)
Definition send_disabled (st : state) : bool :=
  loading st || eqb (trim (nlInput st)) Empty.

(** The first [n] pending [setTimeout] callbacks run, oldest first: all of
    them were queued with the same delay. *)
Fixpoint timeouts_fire (n : nat) (st : state) : state :=
  match n with
  | O => st
  | S k => timeouts_fire k (timeout_fires st)
  end.

End WithNumber.
End ChatPage.

(* ===================================================================== *)
(** * [app/src/app/page.tsx] *)
(* ===================================================================== *)

Module Page.
Import JS.
Local Open Scope js_scope.

Section WithNumber.
Context {N : JSNumber}.

Record state : Type := {
  data : json;
  loading : bool;
  nlInput : jsstring
}.

Definition initial : state :=
  {| data := JNull; loading := false; nlInput := Empty |}.

Definition handleInputChange (value : jsstring) (st : state) : state :=
  {| data := data st; loading := loading st; nlInput := value |}.

(** [handleSubmit] up to the [await]: the new state and the request body. *)
Definition handleSubmit_send (st : state) : state * json :=
  ({| data := JNull; loading := true; nlInput := nlInput st |},
   JObj [ ("input", JStr (nlInput st)) ]).

Inductive fetched : Type :=
| Rejected
| Resolved (json : JS.json).

(** [handleSubmit] from the [await] on. *)
Definition handleSubmit_receive (r : fetched) (st : state) : state :=
  match r with
  | Resolved json => {| data := json; loading := false; nlInput := nlInput st |}
  | Rejected => {| data := data st; loading := false; nlInput := nlInput st |}
  end.

(** [data && data.chart_data ? data.chart_data : {}] *)
Definition chartData (data : json) : json :=
  if truthy data && truthy (opt_prop data "chart_data")
  then opt_prop data "chart_data"
  else JObj [].

(** The results block is rendered under [!loading && data]. *)
Definition results_visible (st : state) : bool :=
  negb (loading st) && truthy (data st).

End WithNumber.
End Page.

(* ===================================================================== *)
(** * A browser session on the chat page *)
(* ===================================================================== *)

(** The chat page together with the requests that have been posted and not
    yet answered.  The browser delivers an event only when the page lets
    it: the text input is [disabled] while [loading], which rules out both
    typing and submitting the form; a response needs a request in flight; a
    timer needs a pending callback. *)
Module Session.
Import JS.

Section WithNumber.
Context {N : JSNumber}.

Record session : Type := {
  page : ChatPage.state;
  in_flight : nat
}.

Definition start (now : Z) : session :=
  {| page := ChatPage.initial now; in_flight := 0 |}.

Definition enabled (s : session) (e : ChatPage.event) : bool :=
  match e with
  | ChatPage.InputChange _ | ChatPage.Submit _ => negb (ChatPage.input_disabled (page s))
  | ChatPage.Response _ _ => Nat.ltb 0 (in_flight s)
  | ChatPage.TimeoutFires =>
      match ChatPage.timeouts (page s) with
      | [] => false
      | _ :: _ => true
      end
  end.

Definition advance (s : session) (e : ChatPage.event) : session :=
  {| page := ChatPage.step (page s) e;
     in_flight :=
       match e with
       | ChatPage.Submit now =>
           match ChatPage.handleSubmit_send now (page s) with
           | Some _ => S (in_flight s)
           | None => in_flight s
           end
       | ChatPage.Response _ _ => Nat.pred (in_flight s)
       | _ => in_flight s
       end |}.

(** Every event of the list is enabled when its turn comes. *)
Fixpoint admissible (s : session) (events : list ChatPage.event) : bool :=
  match events with
  | [] => true
  | e :: rest => enabled s e && admissible (advance s e) rest
  end.

Definition play (s : session) (events : list ChatPage.event) : session :=
  fold_left advance events s.

(** The roles of a conversation that opens with the assistant and then
    takes turns. *)
Fixpoint takes_turns (expected : ChatPage.Role) (roles : list ChatPage.Role) : bool :=
  match roles with
  | [] => true
  | r :: rest =>
      match expected, r with
      | ChatPage.assistant, ChatPage.assistant => takes_turns ChatPage.user rest
      | ChatPage.user, ChatPage.user => takes_turns ChatPage.assistant rest
      | _, _ => false
      end
  end.

Definition roles (s : session) : list ChatPage.Role :=
  map ChatPage.role (ChatPage.chatHistory (page s)).

(** The state of affairs between events: the chat takes turns, and either
    the page is idle after an assistant message or it waits for the one
    answer to the user's last message. *)
Definition consistent (s : session) : Prop :=
  takes_turns ChatPage.assistant (roles s) = true /\
  ((ChatPage.loading (page s) = false /\ in_flight s = 0 /\
    last (roles s) ChatPage.user = ChatPage.assistant) \/
   (ChatPage.loading (page s) = true /\ in_flight s = 1 /\
    last (roles s) ChatPage.assistant = ChatPage.user)).

End WithNumber.
End Session.

(* ===================================================================== *)
(** * The backtest pipeline *)
(* ===================================================================== *)

Module Backend.
Local Open Scope Q_scope.

(** ** Data model *)

(** Modelled from the spec: the data model of the backend
    ([backend/backtest_loop.py] and [backend/main.py] are missing); one
    element of PriceSeries, "(date, open, high, low, close, volume)". *)
Record bar : Type := {
  date : Z;
  open : Q;
  high : Q;
  low : Q;
  close : Q;
  volume : Q
}.

(** Modelled from the spec: an indicator value series, aligned with the
    price series; [None] is a value "still undefined (indicator warm-up)". *)
Definition series : Type := list (option Q).

(** Modelled from the spec: a declared indicator, "{name, params}". *)
Record indicator : Type := {
  indicator_name : string;
  params : list (string * Q)
}.

(** Modelled from the spec: a rule side "may reference an indicator series,
    the raw close price, or a numeric constant". *)
Inductive operand : Type :=
| IndicatorRef (i : indicator)
| Price
| Constant (c : Q).

(** Modelled from the spec: the operators of section 4.6, under the names
    their aliases ([gt], [lt], [eq], [gte], [lte]) resolve to. *)
Inductive operator : Type :=
| cross_above | cross_below
| greater_than | less_than | equal_to
| greater_than_or_equal | less_than_or_equal.

(** Modelled from the spec: "{left, operator, right}". *)
Record condition : Type := {
  lhs : operand;
  op : operator;
  rhs : operand
}.

(** Modelled from the spec: the Strategy of section 3. *)
Record Strategy : Type := {
  ticker : string;
  start_date : Z;
  end_date : Z;
  initial_cash : Q;
  fee_rate : Q;
  indicators : list indicator;
  entry_rule : condition;
  exit_rule : condition
}.

(** Modelled from the spec: the numeric conditions a validated Strategy
    meets: "start < end", "initial_cash (positive number)", "fee_rate
    (fraction in [0,1))". *)
Definition valid (s : Strategy) : Prop :=
  (start_date s < end_date s)%Z /\ 0 < initial_cash s /\ 0 <= fee_rate s /\ fee_rate s < 1.

(** ** SignalEngine *)

(** Modelled from the spec: the SignalEngine of section 4.6, missing with
    [backend/backtest_loop.py].  [value_at A i] is [A[i]], undefined outside
    the series. *)
Definition value_at (A : series) (i : nat) : option Q := nth i A None.

Definition Qlt_bool (a b : Q) : bool := negb (Qle_bool b a).

(** Modelled from the spec: "cross_above(A,B)[i] true iff A[i-1] <= B[i-1]
    AND A[i] > B[i]", false when an operand is undefined or when there is
    no bar [i-1]. *)
Definition cross_above_at (A B : series) (i : nat) : bool :=
  match i with
  | O => false
  | S j =>
      match value_at A j, value_at B j, value_at A i, value_at B i with
      | Some a0, Some b0, Some a1, Some b1 => Qle_bool a0 b0 && Qlt_bool b1 a1
      | _, _, _, _ => false
      end
  end.

(** Modelled from the spec: the "symmetric definition for cross_below". *)
Definition cross_below_at (A B : series) (i : nat) : bool :=
  match i with
  | O => false
  | S j =>
      match value_at A j, value_at B j, value_at A i, value_at B i with
      | Some a0, Some b0, Some a1, Some b1 => Qle_bool b0 a0 && Qlt_bool a1 b1
      | _, _, _, _ => false
      end
  end.

(** Modelled from the spec: "comparison operators (gt, lt, eq, gte, lte)
    evaluate pointwise at each bar"; "any operand still undefined makes the
    condition false at that bar". *)
Definition compare_at (test : Q -> Q -> bool) (A B : series) (i : nat) : bool :=
  match value_at A i, value_at B i with
  | Some a, Some b => test a b
  | _, _ => false
  end.

(** Modelled from the spec: one condition at one bar. *)
Definition holds_at (o : operator) (A B : series) (i : nat) : bool :=
  match o with
  | cross_above => cross_above_at A B i
  | cross_below => cross_below_at A B i
  | greater_than => compare_at (fun a b => Qlt_bool b a) A B i
  | less_than => compare_at Qlt_bool A B i
  | equal_to => compare_at Qeq_bool A B i
  | greater_than_or_equal => compare_at (fun a b => Qle_bool b a) A B i
  | less_than_or_equal => compare_at Qle_bool A B i
  end.

(** Modelled from the spec: a boolean series "aligned 1:1 with PriceSeries
    by index"; [n] is the number of bars. *)
Definition evaluate (o : operator) (A B : series) (n : nat) : list bool :=
  map (holds_at o A B) (seq 0 n).

(** ** IndicatorEngine *)

Definition Qsum (l : list Q) : Q := fold_right Qplus 0 l.

(** Modelled from the spec: "SMA(period): arithmetic mean of trailing period
    closes; undefined for the first period-1 bars". *)
Definition SMA (period : nat) (closes : list Q) : series :=
  map (fun i =>
         if (Nat.leb period (S i) && Nat.ltb 0 period)%bool
         then Some (Qsum (firstn period (skipn (S i - period) closes)) / inject_Z (Z.of_nat period))
         else None)
      (seq 0 (List.length closes)).

Section Pipeline.

(** Modelled from the spec: the IndicatorEngine as a whole, "deterministic,
    pure functions of the price series"; its indicators other than [SMA]
    are not spelled out here. *)
Variable IndicatorEngine : indicator -> list Q -> series.

(** Modelled from the spec: "both rule sides may reference an indicator
    series, the raw close price, or a numeric constant". *)
Definition operand_series (closes : list Q) (o : operand) : series :=
  match o with
  | IndicatorRef i => IndicatorEngine i closes
  | Price => map Some closes
  | Constant c => map (fun _ => Some c) closes
  end.

(** Modelled from the spec: the signal series of one rule. *)
Definition signal (closes : list Q) (c : condition) : list bool :=
  evaluate (op c) (operand_series closes (lhs c)) (operand_series closes (rhs c))
           (List.length closes).

End Pipeline.

(** ** BacktestSimulator *)

(** Modelled from the spec: the BacktestSimulator of section 4.7, missing
    with [backend/backtest_loop.py]; its two states. *)
Inductive position : Type := Flat | Long.

(** Modelled from the spec: the portfolio between bars; the last three
    fields remember the open trade. *)
Record account : Type := {
  pos : position;
  cash : Q;
  shares : Q;
  entry_date : Z;
  entry_price : Q;
  entry_cash : Q
}.

(** Modelled from the spec: "a trade record holds entry date/price, exit
    date/price, realized return"; the return is taken on the cash put in. *)
Record trade : Type := {
  trade_entry_date : Z;
  trade_entry_price : Q;
  trade_exit_date : Z;
  trade_exit_price : Q;
  realized_return : Q
}.

(** Modelled from the spec: one bar with its two signals, "aligned 1:1
    with PriceSeries by index". *)
Record tick : Type := {
  price : bar;
  entry : bool;
  exit : bool
}.

(** Modelled from the spec: what a bar does to the position; "a trade
    record is appended on every close transition". *)
Inductive transition : Type :=
| Opened
| Closed (t : trade)
| Held.

(** Modelled from the spec: the simulator starts [Flat] with the initial
    cash. *)
Definition start_account (cash0 : Q) : account :=
  {| pos := Flat; cash := cash0; shares := 0;
     entry_date := 0%Z; entry_price := 0; entry_cash := 0 |}.

(** Modelled from the spec: "On open: cash converted to shares at that
    bar's close, reduced by fee_rate." *)
Definition open_position (fee : Q) (a : account) (b : bar) : account :=
  {| pos := Long; cash := 0; shares := cash a * (1 - fee) / close b;
     entry_date := date b; entry_price := close b; entry_cash := cash a |}.

(** Modelled from the spec: "On close: shares converted back to cash at that
    bar's close, reduced by fee_rate." *)
Definition close_position (fee : Q) (a : account) (b : bar) : account :=
  {| pos := Flat; cash := shares a * close b * (1 - fee); shares := 0;
     entry_date := entry_date a; entry_price := entry_price a;
     entry_cash := entry_cash a |}.

(** Modelled from the spec: the record of the trade that a close ends. *)
Definition closed_trade (fee : Q) (a : account) (b : bar) : trade :=
  {| trade_entry_date := entry_date a;
     trade_entry_price := entry_price a;
     trade_exit_date := date b;
     trade_exit_price := close b;
     realized_return := shares a * close b * (1 - fee) / entry_cash a - 1 |}.

(** Modelled from the spec: "Transition Flat->Long on entry[i] true;
    Long->Flat on exit[i] true; no transition otherwise; entry and exit on
    the same bar resolve to exit first if a position is currently open". *)
Definition step (fee : Q) (a : account) (t : tick) : account * transition :=
  match pos a with
  | Long =>
      if exit t then (close_position fee a (price t), Closed (closed_trade fee a (price t)))
      else (a, Held)
  | Flat =>
      if entry t then (open_position fee a (price t), Opened)
      else (a, Held)
  end.

(** Modelled from the spec: "Equity at each bar = cash if Flat, else shares
    x that bar's close". *)
Definition equity_of (a : account) (b : bar) : Q :=
  match pos a with
  | Flat => cash a
  | Long => shares a * close b
  end.

(** Modelled from the spec: what the simulator records for one bar of the
    "position state sequence". *)
Record frame : Type := {
  before : account;
  at_bar : tick;
  happened : transition;
  after : account
}.

(** Modelled from the spec: the "single-pass, bar-by-bar" run. *)
Fixpoint simulate (fee : Q) (a : account) (ticks : list tick) : list frame :=
  match ticks with
  | [] => []
  | t :: rest =>
      let '(a', tr) := step fee a t in
      {| before := a; at_bar := t; happened := tr; after := a' |} :: simulate fee a' rest
  end.

(** Modelled from the spec: the EquityCurve, the position sequence and the
    trade log of a run. *)
Definition equity_curve (frames : list frame) : list Q :=
  map (fun f => equity_of (after f) (price (at_bar f))) frames.

Definition positions (frames : list frame) : list position :=
  map (fun f => pos (after f)) frames.

Definition trade_log (frames : list frame) : list trade :=
  flat_map (fun f => match happened f with Closed t => [t] | _ => [] end) frames.

(** The open and close events, in order. *)
Definition is_event (tr : transition) : bool :=
  match tr with Held => false | _ => true end.

Definition events (frames : list frame) : list transition :=
  filter is_event (map happened frames).

(** [alternating p evs]: from position [p], the events are open, close,
    open, close, ... *)
Fixpoint alternating (p : position) (evs : list transition) : Prop :=
  match evs with
  | [] => True
  | Opened :: rest => p = Flat /\ alternating Long rest
  | Closed _ :: rest => p = Long /\ alternating Flat rest
  | Held :: _ => False
  end.

(** A frame is legal when an open starts from [Flat], a close starts from
    [Long], and nothing else moves the account. *)
Definition legal (f : frame) : Prop :=
  match happened f with
  | Opened => pos (before f) = Flat /\ pos (after f) = Long
  | Closed _ => pos (before f) = Long /\ pos (after f) = Flat
  | Held => after f = before f
  end.

(** Open positions after a prefix of the events: opens minus closes. *)
Fixpoint open_positions (evs : list transition) : Z :=
  match evs with
  | [] => 0%Z
  | Opened :: rest => (open_positions rest + 1)%Z
  | Closed _ :: rest => (open_positions rest - 1)%Z
  | Held :: rest => open_positions rest
  end.

(** ** Drawdown *)

(** Modelled from the spec: "(value - running_max)/running_max at each
    point"; [m] is the maximum of the values before this point. *)
Fixpoint drawdown_from (m : Q) (values : list Q) : list Q :=
  match values with
  | [] => []
  | v :: rest =>
      let running_max := Qmax m v in
      (v - running_max) / running_max :: drawdown_from running_max rest
  end.

Definition drawdown_series (values : list Q) : list Q :=
  match values with
  | [] => []
  | v :: _ => drawdown_from v values
  end.

Fixpoint Qminimum (x : Q) (l : list Q) : Q :=
  match l with
  | [] => x
  | y :: rest => Qminimum (Qmin x y) rest
  end.

(** Modelled from the spec: "max_drawdown = min(DrawdownSeries)"; there is
    no minimum of an empty series. *)
Definition max_drawdown (dd : list Q) : option Q :=
  match dd with
  | [] => None
  | d :: rest => Some (Qminimum d rest)
  end.

Fixpoint nondecreasing_from (m : Q) (values : list Q) : Prop :=
  match values with
  | [] => True
  | v :: rest => m <= v /\ nondecreasing_from v rest
  end.

Definition nondecreasing (values : list Q) : Prop :=
  match values with
  | [] => True
  | v :: rest => nondecreasing_from v rest
  end.

(** ** MetricsCalculator *)

(** Modelled from the spec: the MetricsCalculator of section 4.8, missing
    with [backend/backtest_loop.py].  A metric is the value of a
    floating-point quotient: finite, or one of the two results of dividing
    by zero ("infinity", "NaN"). *)
Inductive fnum : Type :=
| Finite (q : Q)
| Infinite
| NotANumber.

Definition fdiv (a b : Q) : fnum :=
  if Qeq_bool b 0 then (if Qeq_bool a 0 then NotANumber else Infinite)
  else Finite (a / b).

Definition count (A : Type) (l : list A) : Q := inject_Z (Z.of_nat (List.length l)).

Definition mean (l : list Q) : Q :=
  match l with
  | [] => 0
  | _ => Qsum l / count l
  end.

Definition variance (l : list Q) : Q :=
  let m := mean l in mean (map (fun x => (x - m) * (x - m)) l).

(** Modelled from the spec: "daily returns derived from EquityCurve". *)
Fixpoint daily_returns (values : list Q) : list Q :=
  match values with
  | [] => []
  | previous :: rest =>
      match rest with
      | [] => []
      | current :: _ => (current / previous - 1) :: daily_returns rest
      end
  end.

Definition winning (t : trade) : bool := Qlt_bool 0 (realized_return t).
Definition losing (t : trade) : bool := Qlt_bool (realized_return t) 0.

Definition wins (trades : list trade) : list Q :=
  map realized_return (filter winning trades).

Definition losses (trades : list trade) : list Q :=
  map realized_return (filter losing trades).

Section Metrics.

(** The "large sentinel" of profit_factor; the specification does not give
    its value. *)
Variable profit_factor_sentinel : Q.

(** Square root and power of the floating-point library. *)
Variable sqrt : Q -> Q.
Variable pow : Q -> Q -> Q.

Definition total_trades (trades : list trade) : nat := List.length trades.

(** Modelled from the spec: "win_rate = wins/total_trades", "0 when [the]
    denominator (trade count or variance) is zero". *)
Definition win_rate (trades : list trade) : fnum :=
  match trades with
  | [] => Finite 0
  | _ => fdiv (count (wins trades)) (count trades)
  end.

(** Modelled from the spec: "mean percentage return of winning/losing
    trades respectively". *)
Definition avg_winning_trade (trades : list trade) : fnum :=
  match wins trades with
  | [] => Finite 0
  | w => fdiv (Qsum w) (count w)
  end.

(** Modelled from the spec: "avg_losing_trade", the mean return of the
    losing trades. *)
Definition avg_losing_trade (trades : list trade) : fnum :=
  match losses trades with
  | [] => Finite 0
  | l => fdiv (Qsum l) (count l)
  end.

(** Modelled from the spec: "profit_factor = sum(gains)/abs(sum(losses))
    (defined as a large sentinel, not infinity, when there are no losing
    trades)". *)
Definition profit_factor (trades : list trade) : fnum :=
  match losses trades with
  | [] => Finite profit_factor_sentinel
  | l => fdiv (Qsum (wins trades)) (Qabs (Qsum l))
  end.

(** Modelled from the spec: "sharpe_ratio = mean(returns)/stdev(returns) *
    sqrt(252)". *)
Definition sharpe_ratio (returns : list Q) : fnum :=
  if Qeq_bool (variance returns) 0 then Finite 0
  else fdiv (mean returns * sqrt 252) (sqrt (variance returns)).

(** Modelled from the spec: "sortino_ratio uses only the standard deviation
    of negative returns in the denominator". *)
Definition sortino_ratio (returns : list Q) : fnum :=
  let downside := filter (fun r => Qlt_bool r 0) returns in
  if Qeq_bool (variance downside) 0 then Finite 0
  else fdiv (mean returns * sqrt 252) (sqrt (variance downside)).

(** Modelled from the spec: "years = (end_date - start_date)/365.25". *)
Definition years (s : Strategy) : Q :=
  inject_Z (end_date s - start_date s) / (1461 # 4).

(** Modelled from the spec: "CAGR = (end/start)^(1/years) - 1 (fails
    gracefully to 0 if years <= 0)". *)
Definition CAGR (s : Strategy) (start_value end_value : Q) : Q :=
  if Qle_bool (years s) 0 then 0
  else pow (end_value / start_value) (1 / years s) - 1.

End Metrics.

(** ** RunStructuredBacktest *)

(** Modelled from the spec: the part of "{metrics, chart_data}" that the
    properties below are about. *)
Record result : Type := {
  dates : list Z;
  equity : list Q;
  drawdown : list Q;
  trades : list trade
}.

Definition ticks_of (prices : list bar) (entries exits : list bool) : list tick :=
  map (fun '(b, (en, ex)) => {| price := b; entry := en; exit := ex |})
      (combine prices (combine entries exits)).

Definition result_of (prices : list bar) (frames : list frame) : result :=
  {| dates := map date prices;
     equity := equity_curve frames;
     drawdown := drawdown_series (equity_curve frames);
     trades := trade_log frames |}.

Section Run.

Variable IndicatorEngine : indicator -> list Q -> series.

Definition ticks (s : Strategy) (prices : list bar) : list tick :=
  let closes := map close prices in
  ticks_of prices (signal IndicatorEngine closes (entry_rule s))
                  (signal IndicatorEngine closes (exit_rule s)).

(** Modelled from the spec: "IndicatorEngine -> SignalEngine ->
    BacktestSimulator", for a validated strategy. *)
Definition RunStructuredBacktest (s : Strategy) (prices : list bar) : result :=
  result_of prices
            (simulate (fee_rate s) (start_account (initial_cash s)) (ticks s prices)).

End Run.

End Backend.

(* ===================================================================== *)
(** * Example inputs *)
(* ===================================================================== *)

Module Examples.
Import JS.
Local Open Scope js_scope.

(** A response per the interface "{needs_clarification: true, message}". *)
Definition bare_clarification : json :=
  JObj [ ("needs_clarification", JBool true);
         ("message", JStr "Which ticker would you like to test?") ].

(** The same with the [conversation] field the chat page tests for. *)
Definition clarification : json :=
  JObj [ ("conversation", JObj [ ("ticker", JNull) ]);
         ("needs_clarification", JBool true);
         ("message", JStr "Which ticker would you like to test?") ].

Definition failure : json :=
  JObj [ ("error", JStr "Ticker XYZ not found") ].

(** An error whose own [toString] key hides [Object.prototype.toString]. *)
Definition unprintable_failure : json :=
  JObj [ ("error", JObj [ ("toString", JStr "x") ]) ].

Definition results : json :=
  JObj [ ("metrics", JObj [ ("total_trades", JNum (safe 3)) ]);
         ("chart_data",
          JObj [ ("dates", JArr [ JStr "2024-01-02"; JStr "2024-01-03" ]);
                 ("equity", JArr [ JNum (safe 10000); JNum (safe 10100) ]);
                 ("drawdown", JArr [ JNum (safe 0); JNum (safe 0) ]);
                 ("indicators", JObj [ ("SMA_5", JArr [ JNull; JNum (safe 101) ]) ]);
                 ("signals", JObj [ ("entry", JArr [ JBool false; JBool true ]) ]) ]) ].

(** The chat page up to the display of [results]. *)
Definition first_exchange : list ChatPage.event :=
  [ ChatPage.InputChange "Buy SPY when RSI < 30, sell when RSI > 70";
    ChatPage.Submit 10;
    ChatPage.Response 20 (ChatPage.Resolved results);
    ChatPage.TimeoutFires ].

Definition showing_results : ChatPage.state :=
  ChatPage.run (ChatPage.initial 0) first_exchange.

(** A second question typed, then sent. *)
Definition second_question : list ChatPage.event :=
  first_exchange ++ [ ChatPage.InputChange "Now try it on QQQ" ].

Definition awaiting_second_reply : ChatPage.state :=
  ChatPage.step (ChatPage.run (ChatPage.initial 0) second_question) (ChatPage.Submit 30).

Definition second_request : json :=
  ChatPage.request_body "Now try it on QQQ" (ChatPage.chatHistory showing_results).

(** The plain page after one completed request, a second text typed. *)
Definition page_second_turn : Page.state :=
  Page.handleInputChange "Now try it on QQQ"
    (Page.handleSubmit_receive (Page.Resolved results)
       (fst (Page.handleSubmit_send
               (Page.handleInputChange "Buy SPY when RSI < 30, sell when RSI > 70"
                  Page.initial)))).

(** The chat page with three spaces typed, and with a question typed. *)
Definition spaces_typed : ChatPage.state :=
  ChatPage.handleInputChange "   " (ChatPage.initial 0).

(** The same with a NO-BREAK SPACE, an EM SPACE and a byte order mark. *)
Definition wide_spaces_typed : ChatPage.state :=
  ChatPage.handleInputChange (Unit 160 (Unit 8195 (Unit 65279 Empty))) (ChatPage.initial 0).

Definition question_typed : ChatPage.state :=
  ChatPage.handleInputChange "Buy SPY when RSI < 30, sell when RSI > 70"
                             (ChatPage.initial 0).

Definition waiting_for_first_reply : ChatPage.state :=
  ChatPage.step question_typed (ChatPage.Submit 10).

(** A whole session: results, a second question, a clarification. *)
Definition two_exchanges : list ChatPage.event :=
  second_question ++
  [ ChatPage.Submit 30; ChatPage.Response 40 (ChatPage.Resolved clarification) ].

(** Six daily bars, and a strategy that buys when the close crosses above
    its two-day average and sells when the close falls below 10. *)
Definition flat_bar (d : Z) (c : Q) : Backend.bar :=
  {| Backend.date := d; Backend.open := c; Backend.high := c;
     Backend.low := c; Backend.close := c; Backend.volume := 0%Q |}.

Definition six_bars : list Backend.bar :=
  [ flat_bar 1 10%Q; flat_bar 2 11%Q; flat_bar 3 12%Q;
    flat_bar 4 9%Q; flat_bar 5 13%Q; flat_bar 6 14%Q ].

Definition sma2 : Backend.indicator :=
  {| Backend.indicator_name := "SMA"%string;
     Backend.params := [ ("period"%string, 2%Q) ] |}.

Definition crossover : Backend.Strategy :=
  {| Backend.ticker := "SPY"%string;
     Backend.start_date := 1; Backend.end_date := 6;
     Backend.initial_cash := 1000%Q; Backend.fee_rate := (1 # 1000)%Q;
     Backend.indicators := [ sma2 ];
     Backend.entry_rule :=
       {| Backend.lhs := Backend.Price; Backend.op := Backend.cross_above;
          Backend.rhs := Backend.IndicatorRef sma2 |};
     Backend.exit_rule :=
       {| Backend.lhs := Backend.Price; Backend.op := Backend.less_than;
          Backend.rhs := Backend.Constant 10%Q |} |}.

(** An engine that knows the two-day average only. *)
Definition sma2_engine (i : Backend.indicator) (closes : list Q) : Backend.series :=
  Backend.SMA 2 closes.

Definition gain (r : Q) : Backend.trade :=
  {| Backend.trade_entry_date := 1; Backend.trade_entry_price := 10%Q;
     Backend.trade_exit_date := 2; Backend.trade_exit_price := 11%Q;
     Backend.realized_return := r |}.

Definition two_gains : list Backend.trade := [ gain (1 # 10)%Q; gain (1 # 20)%Q ].

End Examples.

(* ===================================================================== *)
(** * Properties of the pages *)
(* ===================================================================== *)

Section PageProperties.
Import JS.
Local Open Scope js_scope.
Context {N : JSNumber}.

Lemma jsstring_eqb_spec (s t : jsstring) : reflect (s = t) (eqb s t).
Proof.
  revert t. induction s as [|c s IH]; intros [|d t]; simpl; try (constructor; congruence).
  destruct (N.eqb_spec c d) as [->|Hcd]; simpl.
  - destruct (IH t) as [->|Hst]; constructor; congruence.
  - constructor. congruence.
Qed.

Lemma opt_prop_nullish (v : json) (k : jsstring) :
  prop v k = None -> opt_prop v k = JUndefined.
Proof. unfold opt_prop. intros ->. reflexivity. Qed.

Lemma truthy_not_nullish (v : json) (k : jsstring) :
  truthy (opt_prop v k) = true -> exists x, prop v k = Some x /\ opt_prop v k = x.
Proof.
  unfold opt_prop. destruct (prop v k) as [x|] eqn:E.
  - intros _. exists x. split; reflexivity.
  - simpl. discriminate.
Qed.

(** [chartData] is an object or a primitive on either page, so reading
    [chartData.dates] and the like never throws. *)
Lemma ChatPage_chartData_not_nullish (d : json) (k : jsstring) :
  prop (ChatPage.chartData d) k <> None.
Proof.
  unfold ChatPage.chartData.
  destruct (opt_prop d "chart_data"); simpl; discriminate.
Qed.

Lemma Page_chartData_not_nullish (d : json) (k : jsstring) :
  prop (Page.chartData d) k <> None.
Proof.
  unfold Page.chartData.
  destruct (truthy d && truthy (opt_prop d "chart_data")) eqn:E.
  - apply andb_true_iff in E as [_ E].
    destruct (opt_prop d "chart_data"); simpl in *; discriminate.
  - simpl. discriminate.
Qed.

(** On both pages [chartData.dates] is [data?.chart_data?.dates]. *)
Lemma ChatPage_dates (d : json) :
  Charts.get (ChatPage.chartData d) "dates" = opt_prop (opt_prop d "chart_data") "dates".
Proof.
  unfold ChatPage.chartData, Charts.get.
  destruct (opt_prop d "chart_data"); reflexivity.
Qed.

Lemma Page_dates (d : json) :
  Charts.get (Page.chartData d) "dates" = opt_prop (opt_prop d "chart_data") "dates".
Proof.
  unfold Page.chartData, Charts.get.
  destruct (truthy d) eqn:Td; simpl.
  - destruct (opt_prop d "chart_data") as [| |b|n|s|l|f] eqn:E; simpl; try reflexivity.
    + destruct b; reflexivity.
    + destruct (num_falsy n); reflexivity.
    + destruct (eqb s Empty); reflexivity.
  - destruct d as [| |b|n|s|l|f]; simpl in Td; try discriminate; try reflexivity.
Qed.

Lemma equityChart_labels (cd : json) (c : Charts.chart) :
  Charts.equityChart cd = Some c -> Charts.labels c = Charts.get cd "dates".
Proof.
  unfold Charts.equityChart.
  destruct (negb (truthy (Charts.get cd "dates")) || negb (truthy (Charts.get cd "equity")));
    [discriminate|].
  intros E. injection E as <-. reflexivity.
Qed.

Lemma drawdownChart_labels (cd : json) (c : Charts.chart) :
  Charts.drawdownChart cd = Some c -> Charts.labels c = Charts.get cd "dates".
Proof.
  unfold Charts.drawdownChart.
  destruct (negb (truthy (Charts.get cd "dates")) || negb (truthy (Charts.get cd "drawdown")));
    [discriminate|].
  intros E. injection E as <-. reflexivity.
Qed.

Lemma indicatorCharts_labels (cd : json) :
  Forall (fun o => Charts.labels (Charts.chart_of o) = Charts.get cd "dates")
         (Charts.indicatorCharts cd).
Proof.
  unfold Charts.indicatorCharts.
  destruct (negb (truthy (Charts.get cd "indicators"))); [constructor|].
  induction (Object_entries (Charts.get cd "indicators")) as [|[name values] rest IH];
    simpl; constructor; [reflexivity | exact IH].
Qed.

Lemma signalCharts_labels (cd : json) :
  Forall (fun o => Charts.labels (Charts.chart_of o) = Charts.get cd "dates")
         (Charts.signalCharts cd).
Proof.
  unfold Charts.signalCharts.
  destruct (negb (truthy (Charts.get cd "signals"))); [constructor|].
  induction (Object_entries (Charts.get cd "signals")) as [|[name values] rest IH];
    simpl; constructor; [reflexivity | exact IH].
Qed.

Lemma all_charts_labels (cd : json) :
  Forall (fun c => Charts.labels c = Charts.get cd "dates") (Charts.all_charts cd).
Proof.
  unfold Charts.all_charts.
  apply Forall_app; split; [|apply Forall_app; split; [|apply Forall_app; split]].
  - destruct (Charts.equityChart cd) as [c|] eqn:E; constructor;
      [apply equityChart_labels, E | constructor].
  - destruct (Charts.drawdownChart cd) as [c|] eqn:E; constructor;
      [apply drawdownChart_labels, E | constructor].
  - apply Forall_map, indicatorCharts_labels.
  - apply Forall_map, signalCharts_labels.
Qed.

(** C8. Whatever the response held, every chart object either page builds
    (equity, drawdown, one per indicator, one per signal) has the one array
    [data?.chart_data?.dates] as its [labels]. *)
Theorem charts_labelled_by_dates (d : json) :
  Forall (fun c => Charts.labels c = opt_prop (opt_prop d "chart_data") "dates")
         (Charts.all_charts (ChatPage.chartData d)) /\
  Forall (fun c => Charts.labels c = opt_prop (opt_prop d "chart_data") "dates")
         (Charts.all_charts (Page.chartData d)).
Proof.
  split.
  - rewrite <- ChatPage_dates. apply all_charts_labels.
  - rewrite <- Page_dates. apply all_charts_labels.
Qed.

(** ** The metric formatter *)

Lemma absent_metrics_cells (d : json) :
  opt_prop d "metrics" = JUndefined ->
  Forall (fun cell => snd cell = Some "0.00") (Charts.metric_cells d).
Proof.
  intros H. unfold Charts.metric_cells, Charts.metrics. rewrite H.
  simpl. repeat constructor.
Qed.

(** C9. For every format string [formatValue(undefined, format)] is the
    string "0.00"; hence, when the response has no [metrics], every cell of
    the metrics grid, the currency and percent ones included, reads "0.00"
    with neither "$" nor "%". *)
Theorem formatValue_undefined (format : jsstring) :
  Charts.formatValue JUndefined format = Some "0.00" /\
  (forall d : json,
      opt_prop d "metrics" = JUndefined ->
      Forall (fun cell => snd cell = Some "0.00") (Charts.metric_cells d)).
Proof.
  split.
  - reflexivity.
  - exact absent_metrics_cells.
Qed.

(** ** [handleSubmit] on the chat page *)

Lemma receive_resolved (now : Z) (json : JS.json) (st : ChatPage.state) (x : JS.json) :
  prop json "conversation" = Some x ->
  ChatPage.handleSubmit_receive now (ChatPage.Resolved json) st
  = ChatPage.setLoading false
      match ChatPage.on_json now json st with
      | Some st' => st'
      | None => ChatPage.appendMessage (ChatPage.connection_error now) st
      end.
Proof. unfold ChatPage.handleSubmit_receive. intros ->. reflexivity. Qed.

Lemma prop_defined_any_key (json : JS.json) (k k' : jsstring) (x : JS.json) :
  prop json k = Some x -> exists y, prop json k' = Some y.
Proof.
  destruct json; simpl; try discriminate; intros _; eexists; reflexivity.
Qed.

Lemma truthy_field_resolved (now : Z) (json : JS.json) (st : ChatPage.state) (k : jsstring) :
  truthy (opt_prop json k) = true ->
  ChatPage.handleSubmit_receive now (ChatPage.Resolved json) st
  = ChatPage.setLoading false
      match ChatPage.on_json now json st with
      | Some st' => st'
      | None => ChatPage.appendMessage (ChatPage.connection_error now) st
      end.
Proof.
  intros H. apply truthy_not_nullish in H as [x [H _]].
  destruct (@prop_defined_any_key json k "conversation" x H) as [y Hy].
  exact (@receive_resolved now json st y Hy).
Qed.

(** Every way [handleSubmit] can end once the fetch is settled: one
    assistant message is appended, and either nothing else changes (the
    error branch and [catch]), or [data] is cleared (the clarification
    branch), or the response is queued for display (the last branch). *)
Lemma receive_cases (now : Z) (r : ChatPage.fetched) (st : ChatPage.state) :
  exists m,
    ChatPage.role m = ChatPage.assistant /\
    ChatPage.timestamp m = now /\
    (ChatPage.handleSubmit_receive now r st
     = ChatPage.setLoading false (ChatPage.appendMessage m st)
     \/
     ChatPage.handleSubmit_receive now r st
     = ChatPage.setLoading false (ChatPage.setData JNull (ChatPage.appendMessage m st))
     \/
     exists json,
       r = ChatPage.Resolved json /\
       ChatPage.taken_as_results json = true /\
       ChatPage.handleSubmit_receive now r st
       = ChatPage.setLoading false
           (ChatPage.setTimeout json
              (ChatPage.setProcessingBacktest true (ChatPage.appendMessage m st)))).
Proof.
  unfold ChatPage.handleSubmit_receive, ChatPage.taken_as_results.
  destruct r as [|json].
  { eexists. split; [|split; [|left; reflexivity]]; reflexivity. }
  destruct (prop json "conversation") as [x|] eqn:Ep.
  2:{ eexists. split; [|split; [|left; reflexivity]]; reflexivity. }
  unfold ChatPage.on_json.
  destruct (ChatPage.is_clarification json) eqn:Ec.
  { eexists. split; [|split; [|right; left; reflexivity]]; reflexivity. }
  destruct (truthy (opt_prop json "error")) eqn:Ee.
  { destruct (toString (opt_prop json "error"));
      eexists; (split; [|split; [|left; reflexivity]]); reflexivity. }
  exists {| ChatPage.role := ChatPage.assistant;
            ChatPage.content := JStr "Great! I've run your backtest. Here are the results:";
            ChatPage.timestamp := now |}.
  split; [reflexivity|]. split; [reflexivity|]. right. right.
  exists json. rewrite Ep, Ec, Ee. split; [reflexivity|]. split; reflexivity.
Qed.

(** C6, as the page has it.  A response whose [conversation] and
    [needs_clarification] fields are both truthy puts its [message],
    unchanged, at the end of the chat as an assistant message, and clears
    [data], so that no results and no charts are on screen. *)
Theorem clarification_shows_message (now : Z) (json : JS.json) (st : ChatPage.state) :
  truthy (opt_prop json "conversation") = true ->
  truthy (opt_prop json "needs_clarification") = true ->
  let st' := ChatPage.handleSubmit_receive now (ChatPage.Resolved json) st in
  ChatPage.chatHistory st'
  = (ChatPage.chatHistory st ++
     [ {| ChatPage.role := ChatPage.assistant;
          ChatPage.content := opt_prop json "message";
          ChatPage.timestamp := now |} ])%list /\
  ChatPage.data st' = JNull /\
  ChatPage.results_visible st' = false /\
  ChatPage.charts st' = [] /\
  ChatPage.timeouts st' = ChatPage.timeouts st.
Proof.
  intros Hc Hn st'. subst st'.
  rewrite (@truthy_field_resolved now json st "conversation" Hc).
  unfold ChatPage.on_json, ChatPage.is_clarification. rewrite Hc, Hn. simpl.
  unfold ChatPage.charts, ChatPage.results_visible. simpl.
  rewrite andb_false_r. repeat split; reflexivity.
Qed.

(** C10, as the page has it.  A response with a truthy [error] whose
    [conversation] and [needs_clarification] fields are not both truthy
    appends one assistant message (the error text, or the connection-error
    text when the error cannot be converted to a string) and leaves [data],
    the pending timers and [processingBacktest] as they were; a response
    whose [conversation] and [needs_clarification] fields are both truthy
    sets [data] to [null]. *)
Theorem error_response_keeps_data (now : Z) (json : JS.json) (st : ChatPage.state) :
  (truthy (opt_prop json "conversation") && truthy (opt_prop json "needs_clarification")
   = false ->
   truthy (opt_prop json "error") = true ->
   let st' := ChatPage.handleSubmit_receive now (ChatPage.Resolved json) st in
   ChatPage.data st' = ChatPage.data st /\
   ChatPage.chatHistory st'
   = (ChatPage.chatHistory st ++
      [ {| ChatPage.role := ChatPage.assistant;
           ChatPage.content :=
             JStr match toString (opt_prop json "error") with
                  | Some text => "I encountered an issue: " ++ text
                  | None => "Sorry, I encountered a connection error. Please try again."
                  end;
           ChatPage.timestamp := now |} ])%list /\
   ChatPage.timeouts st' = ChatPage.timeouts st /\
   ChatPage.processingBacktest st' = ChatPage.processingBacktest st) /\
  (truthy (opt_prop json "conversation") = true ->
   truthy (opt_prop json "needs_clarification") = true ->
   ChatPage.data (ChatPage.handleSubmit_receive now (ChatPage.Resolved json) st) = JNull).
Proof.
  split.
  - intros Hc He st'. subst st'.
    rewrite (@truthy_field_resolved now json st "error" He).
    unfold ChatPage.on_json, ChatPage.is_clarification. rewrite Hc, He.
    destruct (toString (opt_prop json "error")); simpl; repeat split; reflexivity.
  - intros Hc Hn.
    rewrite (@truthy_field_resolved now json st "conversation" Hc).
    unfold ChatPage.on_json, ChatPage.is_clarification. rewrite Hc, Hn. reflexivity.
Qed.

(** ** The conversation history *)

Lemma step_appends (st : ChatPage.state) (e : ChatPage.event) :
  exists later, ChatPage.chatHistory (ChatPage.step st e) = (ChatPage.chatHistory st ++ later)%list.
Proof.
  destruct e as [v|now|now r|]; cbn [ChatPage.step].
  - exists []. rewrite app_nil_r. reflexivity.
  - unfold ChatPage.handleSubmit_send.
    destruct (eqb (trim (ChatPage.nlInput st)) Empty).
    + exists []. rewrite app_nil_r. reflexivity.
    + simpl. eexists. reflexivity.
  - destruct (receive_cases now r st) as (m & _ & _ & [E|[E|(json & _ & _ & E)]]);
      rewrite E; simpl; eexists; reflexivity.
  - unfold ChatPage.timeout_fires. destruct (ChatPage.timeouts st).
    + exists []. rewrite app_nil_r. reflexivity.
    + simpl. exists []. rewrite app_nil_r. reflexivity.
Qed.

Lemma run_appends (events : list ChatPage.event) (st : ChatPage.state) :
  exists later,
    ChatPage.chatHistory (ChatPage.run st events) = (ChatPage.chatHistory st ++ later)%list.
Proof.
  unfold ChatPage.run. revert st.
  induction events as [|e events IH]; intros st; simpl.
  - exists []. rewrite app_nil_r. reflexivity.
  - destruct (IH (ChatPage.step st e)) as [l2 H2].
    destruct (step_appends st e) as [l1 H1].
    exists (l1 ++ l2)%list. rewrite H2, H1, app_assoc. reflexivity.
Qed.

(** C7, as the chat page has it.  After any sequence of events, a submit
    that sends a request sends the text as [input] and, as
    [conversation_history], the role and content of every message of
    [chatHistory], in order; [chatHistory] has only grown since the start,
    so every earlier turn is among them. *)
Theorem chat_request_carries_history
        (st0 : ChatPage.state) (events : list ChatPage.event)
        (now : Z) (st' : ChatPage.state) (body : json) :
  ChatPage.handleSubmit_send now (ChatPage.run st0 events) = Some (st', body) ->
  prop body "input" = Some (JStr (ChatPage.nlInput (ChatPage.run st0 events))) /\
  prop body "conversation_history"
  = Some (JArr (map ChatPage.history_entry (ChatPage.chatHistory (ChatPage.run st0 events)))) /\
  (exists later,
      ChatPage.chatHistory (ChatPage.run st0 events)
      = (ChatPage.chatHistory st0 ++ later)%list) /\
  ChatPage.chatHistory st'
  = (ChatPage.chatHistory (ChatPage.run st0 events) ++
     [ {| ChatPage.role := ChatPage.user;
          ChatPage.content := JStr (ChatPage.nlInput (ChatPage.run st0 events));
          ChatPage.timestamp := now |} ])%list.
Proof.
  unfold ChatPage.handleSubmit_send.
  destruct (eqb (trim (ChatPage.nlInput (ChatPage.run st0 events))) Empty);
    [discriminate|].
  intros E. injection E as <- <-.
  repeat split; try reflexivity.
  apply run_appends.
Qed.

End PageProperties.

(** ** Instances *)

Section PageInstances.
Import JS.
Local Open Scope js_scope.

Lemma formatValue_undefined_witness :
  Forall (fun cell => snd cell = Some "0.00") (Charts.metric_cells Examples.failure).
Proof.
  apply (proj2 (formatValue_undefined "currency")). reflexivity.
Defined.

Lemma clarification_shows_message_witness :
  ChatPage.data
    (ChatPage.handleSubmit_receive 40 (ChatPage.Resolved Examples.clarification)
                                   Examples.awaiting_second_reply) = JNull.
Proof.
  apply (clarification_shows_message 40 Examples.clarification
                                     Examples.awaiting_second_reply);
    reflexivity.
Defined.

Lemma error_response_keeps_data_witness :
  ChatPage.data
    (ChatPage.handleSubmit_receive 40 (ChatPage.Resolved Examples.failure)
                                   Examples.awaiting_second_reply)
  = Examples.results.
Proof.
  apply (proj1 (error_response_keeps_data 40 Examples.failure
                                          Examples.awaiting_second_reply));
    reflexivity.
Defined.

Lemma second_submit_sends :
  ChatPage.handleSubmit_send 30 (ChatPage.run (ChatPage.initial 0) Examples.second_question)
  = Some (Examples.awaiting_second_reply, Examples.second_request).
Proof. cbv -[IntegralNumber]. reflexivity. Qed.

Lemma chat_request_carries_history_witness :
  prop Examples.second_request "conversation_history"
  = Some (JArr (map ChatPage.history_entry
                    (ChatPage.chatHistory
                       (ChatPage.run (ChatPage.initial 0) Examples.second_question)))).
Proof.
  exact (proj1 (proj2 (@chat_request_carries_history _
                         (ChatPage.initial 0) Examples.second_question 30
                         Examples.awaiting_second_reply Examples.second_request
                         second_submit_sends))).
Defined.

(** C6, as stated, fails: a response with [needs_clarification] and
    [message] only is taken for a successful backtest.  The chat ends with
    the success message, the question is not shown, [data] is not cleared,
    and the timer then stores the response itself as the results. *)
Lemma bare_clarification_taken_for_results :
  let st' := ChatPage.handleSubmit_receive 40 (ChatPage.Resolved Examples.bare_clarification)
                                           Examples.awaiting_second_reply in
  truthy (opt_prop Examples.bare_clarification "needs_clarification") = true /\
  ~ In {| ChatPage.role := ChatPage.assistant;
          ChatPage.content := opt_prop Examples.bare_clarification "message";
          ChatPage.timestamp := 40 |} (ChatPage.chatHistory st') /\
  last (ChatPage.chatHistory st') (ChatPage.greeting 0)
  = {| ChatPage.role := ChatPage.assistant;
       ChatPage.content := JStr "Great! I've run your backtest. Here are the results:";
       ChatPage.timestamp := 40 |} /\
  ChatPage.data st' <> JNull /\
  ChatPage.data (ChatPage.timeout_fires st') = Examples.bare_clarification.
Proof.
  cbv -[IntegralNumber]. repeat split; try discriminate.
  intros H. repeat (destruct H as [H|H]; [discriminate H|]). exact H.
Qed.

(** C7, as stated, fails on [app/src/app/page.tsx]: after a completed first
    request, the second request carries the new text and nothing else. *)
Lemma page_request_without_history :
  snd (Page.handleSubmit_send Examples.page_second_turn)
  = JObj [ ("input", JStr "Now try it on QQQ") ] /\
  prop (snd (Page.handleSubmit_send Examples.page_second_turn)) "conversation_history"
  = Some JUndefined.
Proof. split; reflexivity. Qed.

(** C10, as stated, fails in its second half: a clarification as the
    interface has it, with [needs_clarification] and [message] only, does
    not reset [data]; the results of the earlier backtest stay in it. *)
Lemma bare_clarification_leaves_data :
  let st' := ChatPage.handleSubmit_receive 40 (ChatPage.Resolved Examples.bare_clarification)
                                           Examples.awaiting_second_reply in
  truthy (opt_prop Examples.bare_clarification "needs_clarification") = true /\
  truthy (opt_prop Examples.bare_clarification "error") = false /\
  ChatPage.data Examples.awaiting_second_reply = Examples.results /\
  ChatPage.data st' = Examples.results /\
  ChatPage.data st' <> JNull.
Proof.
  cbv -[IntegralNumber]. repeat split; try discriminate.
Qed.

(** An error that cannot be converted to a string lands in [catch]. *)
Example unprintable_error_is_caught :
  ChatPage.handleSubmit_receive 40 (ChatPage.Resolved Examples.unprintable_failure)
                                Examples.awaiting_second_reply
  = ChatPage.setLoading false
      (ChatPage.appendMessage (ChatPage.connection_error 40)
                              Examples.awaiting_second_reply).
Proof. reflexivity. Qed.

End PageInstances.

(* ===================================================================== *)
(** * Properties of the pipeline *)
(* ===================================================================== *)

Section SignalProperties.
Import Backend.
Local Open Scope Q_scope.

Lemma Qlt_bool_iff (a b : Q) : Qlt_bool a b = true <-> a < b.
Proof.
  unfold Qlt_bool. rewrite negb_true_iff. split.
  - intros H. apply Qnot_le_lt. intros L.
    apply Qle_bool_iff in L. congruence.
  - intros H. destruct (Qle_bool b a) eqn:E; [|reflexivity].
    apply Qle_bool_iff in E. exfalso. exact (Qlt_not_le _ _ H E).
Qed.

Lemma cross_above_at_spec (A B : series) (i : nat) :
  cross_above_at A B i = true <->
  exists j a0 b0 a1 b1,
    i = S j /\
    value_at A j = Some a0 /\ value_at B j = Some b0 /\
    value_at A i = Some a1 /\ value_at B i = Some b1 /\
    a0 <= b0 /\ b1 < a1.
Proof.
  destruct i as [|j]; unfold cross_above_at.
  - split; [discriminate|]. intros (j & ? & ? & ? & ? & E & _). discriminate E.
  - split.
    + destruct (value_at A j) as [a0|] eqn:EA0; [|discriminate].
      destruct (value_at B j) as [b0|] eqn:EB0; [|discriminate].
      destruct (value_at A (S j)) as [a1|] eqn:EA1; [|discriminate].
      destruct (value_at B (S j)) as [b1|] eqn:EB1; [|discriminate].
      intros H. apply andb_true_iff in H as [H0 H1].
      exists j, a0, b0, a1, b1.
      apply Qle_bool_iff in H0. apply Qlt_bool_iff in H1.
      repeat (split; [reflexivity || assumption|]). assumption.
    + intros (j' & a0 & b0 & a1 & b1 & E & HA0 & HB0 & HA1 & HB1 & H0 & H1).
      injection E as <-. rewrite HA0, HB0, HA1, HB1.
      apply andb_true_iff. split; [apply Qle_bool_iff | apply Qlt_bool_iff]; assumption.
Qed.

Lemma cross_below_at_spec (A B : series) (i : nat) :
  cross_below_at A B i = true <->
  exists j a0 b0 a1 b1,
    i = S j /\
    value_at A j = Some a0 /\ value_at B j = Some b0 /\
    value_at A i = Some a1 /\ value_at B i = Some b1 /\
    b0 <= a0 /\ a1 < b1.
Proof.
  destruct i as [|j]; unfold cross_below_at.
  - split; [discriminate|]. intros (j & ? & ? & ? & ? & E & _). discriminate E.
  - split.
    + destruct (value_at A j) as [a0|] eqn:EA0; [|discriminate].
      destruct (value_at B j) as [b0|] eqn:EB0; [|discriminate].
      destruct (value_at A (S j)) as [a1|] eqn:EA1; [|discriminate].
      destruct (value_at B (S j)) as [b1|] eqn:EB1; [|discriminate].
      intros H. apply andb_true_iff in H as [H0 H1].
      exists j, a0, b0, a1, b1.
      apply Qle_bool_iff in H0. apply Qlt_bool_iff in H1.
      repeat (split; [reflexivity || assumption|]). assumption.
    + intros (j' & a0 & b0 & a1 & b1 & E & HA0 & HB0 & HA1 & HB1 & H0 & H1).
      injection E as <-. rewrite HA0, HB0, HA1, HB1.
      apply andb_true_iff. split; [apply Qle_bool_iff | apply Qlt_bool_iff]; assumption.
Qed.

Lemma evaluate_nth (o : operator) (A B : series) (n i : nat) :
  nth i (evaluate o A B n) false = (Nat.ltb i n && holds_at o A B i)%bool.
Proof.
  unfold evaluate.
  destruct (Nat.ltb_spec i n) as [Hlt|Hge]; simpl.
  - rewrite (nth_indep _ false (holds_at o A B 0)) by (rewrite length_map, length_seq; exact Hlt).
    rewrite map_nth, seq_nth by exact Hlt. reflexivity.
  - apply nth_overflow. rewrite length_map, length_seq. exact Hge.
Qed.

Lemma evaluate_length (o : operator) (A B : series) (n : nat) :
  List.length (evaluate o A B n) = n.
Proof. unfold evaluate. rewrite length_map, length_seq. reflexivity. Qed.

Lemma crosses_exclusive_at (A B : series) (i : nat) :
  (cross_above_at A B i && cross_below_at A B i)%bool = false.
Proof.
  destruct (cross_above_at A B i) eqn:Ha; [|reflexivity].
  destruct (cross_below_at A B i) eqn:Hb; [|reflexivity].
  exfalso.
  apply cross_above_at_spec in Ha as (j & a0 & b0 & a1 & b1 & _ & _ & _ & HA & HB & _ & Hup).
  apply cross_below_at_spec in Hb as (j' & a0' & b0' & a1' & b1' & _ & _ & _ & HA' & HB' & _ & Hdown).
  rewrite HA in HA'. rewrite HB in HB'.
  injection HA' as <-. injection HB' as <-.
  exact (Qlt_irrefl _ (Qlt_trans _ _ _ Hup Hdown)).
Qed.

(** C3. For all operand series [A], [B] and every index [i] of an [n]-bar
    evaluation, the [cross_above] and the [cross_below] signal are not both
    true at [i]. *)
Theorem cross_above_below_exclusive (A B : series) (n i : nat) :
  (nth i (evaluate cross_above A B n) false &&
   nth i (evaluate cross_below A B n) false)%bool = false.
Proof.
  rewrite !evaluate_nth. simpl.
  destruct (Nat.ltb i n); simpl; [apply crosses_exclusive_at | reflexivity].
Qed.

End SignalProperties.

Section SimulatorProperties.
Import Backend.
Local Open Scope Q_scope.

Lemma step_legal (fee : Q) (a : account) (t : tick) :
  legal {| before := a; at_bar := t;
           happened := snd (step fee a t); after := fst (step fee a t) |}.
Proof.
  unfold legal, step; simpl.
  destruct (pos a) eqn:P.
  - destruct (entry t); simpl; [split; reflexivity || exact P | reflexivity].
  - destruct (exit t); simpl; [split; reflexivity || exact P | reflexivity].
Qed.

Lemma simulate_cons (fee : Q) (a : account) (t : tick) (rest : list tick) :
  simulate fee a (t :: rest)
  = {| before := a; at_bar := t;
       happened := snd (step fee a t); after := fst (step fee a t) |}
    :: simulate fee (fst (step fee a t)) rest.
Proof. simpl. destruct (step fee a t). reflexivity. Qed.

Lemma simulate_legal (fee : Q) (ticks : list tick) (a : account) :
  Forall legal (simulate fee a ticks).
Proof.
  revert a. induction ticks as [|t rest IH]; intros a.
  - constructor.
  - rewrite simulate_cons. constructor; [apply step_legal | apply IH].
Qed.

Lemma simulate_alternating (fee : Q) (ticks : list tick) (a : account) :
  alternating (pos a) (events (simulate fee a ticks)).
Proof.
  revert a. induction ticks as [|t rest IH]; intros a.
  - exact I.
  - rewrite simulate_cons. unfold events. simpl.
    specialize (IH (fst (step fee a t))). revert IH.
    unfold step. destruct (pos a) eqn:P.
    + destruct (entry t); simpl; intros IH.
      * split; [reflexivity | exact IH].
      * rewrite P in IH. exact IH.
    + destruct (exit t); simpl; intros IH.
      * split; [reflexivity | exact IH].
      * rewrite P in IH. exact IH.
Qed.

Lemma alternating_open_positions (evs : list transition) :
  forall (p : position) (n : nat),
    alternating p evs ->
    match p with
    | Flat => open_positions (firstn n evs) = 0%Z \/ open_positions (firstn n evs) = 1%Z
    | Long => open_positions (firstn n evs) = 0%Z \/ open_positions (firstn n evs) = (-1)%Z
    end.
Proof.
  induction evs as [|e rest IH]; intros p n H.
  - rewrite firstn_nil. destruct p; left; reflexivity.
  - destruct n as [|n]; [destruct p; left; reflexivity|].
    destruct e as [|t|]; simpl in H.
    + destruct H as [-> H]. specialize (IH Long n H). simpl in *. lia.
    + destruct H as [-> H]. specialize (IH Flat n H). simpl in *. lia.
    + contradiction.
Qed.

(** C1. For every price series and every pair of signal series, each bar
    of the run leaves the position [Flat] or [Long]: an open happens only
    from [Flat] and leads to [Long], a close happens only from [Long] and
    leads to [Flat], the open and close events alternate starting with an
    open, and after any number of events the count of open positions is 0
    or 1. *)
Theorem simulator_events_alternate
        (fee cash0 : Q) (prices : list bar) (entries exits : list bool) :
  let frames := simulate fee (start_account cash0) (ticks_of prices entries exits) in
  Forall legal frames /\
  alternating Flat (events frames) /\
  (forall n : nat,
      open_positions (firstn n (events frames)) = 0%Z \/
      open_positions (firstn n (events frames)) = 1%Z).
Proof.
  intros frames. subst frames. split; [apply simulate_legal|].
  pose proof (simulate_alternating fee (ticks_of prices entries exits) (start_account cash0))
    as H.
  simpl in H. split; [exact H|].
  intros n. exact (alternating_open_positions _ Flat n H).
Qed.

End SimulatorProperties.

Section DrawdownProperties.
Import Backend.
Local Open Scope Q_scope.

Lemma drawdown_point_nonpositive (m v : Q) :
  0 < m -> (v - Qmax m v) / Qmax m v <= 0.
Proof.
  intros Hm.
  assert (HM : 0 < Qmax m v) by (eapply Qlt_le_trans; [exact Hm | apply Q.le_max_l]).
  apply Qle_shift_div_r; [exact HM|].
  pose proof (Q.le_max_r m v). lra.
Qed.

Lemma drawdown_point_zero (m v : Q) :
  0 < m -> ((v - Qmax m v) / Qmax m v == 0 <-> m <= v).
Proof.
  intros Hm.
  assert (HM : 0 < Qmax m v) by (eapply Qlt_le_trans; [exact Hm | apply Q.le_max_l]).
  assert (HM' : ~ Qmax m v == 0) by lra.
  split.
  - intros H.
    assert (E : v - Qmax m v == 0).
    { rewrite <- (Qmult_div_r (v - Qmax m v) (Qmax m v) HM'). rewrite H. ring. }
    pose proof (Q.le_max_l m v). lra.
  - intros H. rewrite (Q.max_r m v H).
    unfold Qdiv. setoid_replace (v - v) with 0 by ring. ring.
Qed.

Lemma drawdown_from_nonpositive (values : list Q) :
  forall m, 0 < m -> Forall (fun d => d <= 0) (drawdown_from m values).
Proof.
  induction values as [|v rest IH]; intros m Hm; simpl.
  - constructor.
  - constructor; [apply drawdown_point_nonpositive, Hm|].
    apply IH. eapply Qlt_le_trans; [exact Hm | apply Q.le_max_l].
Qed.

Lemma nondecreasing_from_compat (values : list Q) (m m' : Q) :
  m == m' -> (nondecreasing_from m values <-> nondecreasing_from m' values).
Proof.
  intros E. destruct values as [|v rest]; simpl; [tauto|].
  rewrite E. tauto.
Qed.

Lemma drawdown_from_zero (values : list Q) :
  forall m, 0 < m ->
    (Forall (fun d => d == 0) (drawdown_from m values) <-> nondecreasing_from m values).
Proof.
  induction values as [|v rest IH]; intros m Hm; simpl.
  - split; intros _; [exact I | constructor].
  - assert (HM : 0 < Qmax m v) by (eapply Qlt_le_trans; [exact Hm | apply Q.le_max_l]).
    split.
    + intros H. inversion H as [|d ds Hd Hds]; subst.
      apply (drawdown_point_zero v Hm) in Hd.
      split; [exact Hd|].
      apply (IH _ HM) in Hds.
      apply (nondecreasing_from_compat rest (Q.max_r m v Hd)). exact Hds.
    + intros [Hd Hrest]. constructor.
      * apply (drawdown_point_zero v Hm). exact Hd.
      * apply (IH _ HM).
        apply (nondecreasing_from_compat rest (Q.max_r m v Hd)). exact Hrest.
Qed.

Lemma Qminimum_le (l : list Q) : forall x, Qminimum x l <= x.
Proof.
  induction l as [|y rest IH]; intros x; simpl.
  - apply Qle_refl.
  - eapply Qle_trans; [apply IH | apply Q.le_min_l].
Qed.

Lemma Qminimum_zero (l : list Q) :
  forall x, Forall (fun d => d <= 0) (x :: l) ->
    (Qminimum x l == 0 <-> Forall (fun d => d == 0) (x :: l)).
Proof.
  induction l as [|y rest IH]; intros x H; simpl.
  - split; [intros E; constructor; [exact E | constructor]|].
    intros E. inversion E. assumption.
  - inversion H as [|? ? Hx Hrest]; subst.
    inversion Hrest as [|? ? Hy Hrest']; subst.
    assert (Hmin : Qmin x y <= 0) by (eapply Qle_trans; [apply Q.le_min_l | exact Hx]).
    rewrite (IH (Qmin x y)) by (constructor; assumption).
    split.
    + intros E. inversion E as [|? ? Em Er]; subst.
      pose proof (Q.le_min_l x y). pose proof (Q.le_min_r x y).
      constructor; [lra|]. constructor; [lra | exact Er].
    + intros E. inversion E as [|? ? Ex Er]; subst.
      inversion Er as [|? ? Ey Er']; subst.
      constructor; [|exact Er'].
      destruct (Q.min_spec x y) as [[_ ->]|[_ ->]]; assumption.
Qed.

(** The drawdown facts for any value series that starts positive. *)
Lemma drawdown_series_facts (v : Q) (rest : list Q) :
  0 < v ->
  Forall (fun d => d <= 0) (drawdown_series (v :: rest)) /\
  exists m, max_drawdown (drawdown_series (v :: rest)) = Some m /\
            m <= 0 /\ (m == 0 <-> nondecreasing (v :: rest)).
Proof.
  intros Hv.
  pose proof (drawdown_from_nonpositive (v :: rest) Hv) as Hall.
  pose proof (drawdown_from_zero (v :: rest) Hv) as Hzero.
  unfold drawdown_series.
  split; [exact Hall|].
  remember (drawdown_from v (v :: rest)) as dd eqn:Edd.
  destruct dd as [|d ds]; [simpl in Edd; discriminate|].
  exists (Qminimum d ds). split; [reflexivity|]. split.
  - eapply Qle_trans; [apply Qminimum_le|]. inversion Hall. assumption.
  - rewrite (Qminimum_zero Hall), Hzero. simpl.
    split; [tauto | intros H; split; [apply Qle_refl | exact H]].
Qed.

Lemma first_equity_positive (fee cash0 : Q) (t : tick) :
  0 < cash0 -> fee < 1 -> 0 < close (price t) ->
  0 < equity_of (fst (step fee (start_account cash0) t)) (price t).
Proof.
  intros Hc Hf Hp. unfold step, equity_of. simpl.
  destruct (entry t); simpl; [|exact Hc].
  setoid_replace (cash0 * (1 - fee) / close (price t) * close (price t))
    with (cash0 * (1 - fee)) by (field; lra).
  apply Qmult_lt_0_compat; lra.
Qed.

Lemma ticks_of_cons_inv (prices : list bar) (entries exits : list bool)
      (t : tick) (rest : list tick) :
  ticks_of prices entries exits = t :: rest -> In (price t) prices.
Proof.
  unfold ticks_of.
  destruct prices as [|b bs]; [discriminate|].
  destruct entries as [|en ens]; [discriminate|].
  destruct exits as [|ex exs]; [discriminate|].
  simpl. intros E. injection E as <- _. left. reflexivity.
Qed.

Lemma signal_length (IE : indicator -> list Q -> series) (closes : list Q) (c : condition) :
  List.length (signal IE closes c) = List.length closes.
Proof. unfold signal. apply evaluate_length. Qed.

Lemma ticks_length (IE : indicator -> list Q -> series) (s : Strategy) (prices : list bar) :
  List.length (ticks IE s prices) = List.length prices.
Proof.
  unfold ticks, ticks_of.
  rewrite length_map, !length_combine, !signal_length, length_map.
  rewrite !Nat.min_id. reflexivity.
Qed.

(** C2. For every run on a validated strategy and positive closing prices,
    every element of the drawdown series is at most 0, hence so is
    [max_drawdown], and [max_drawdown] is 0 exactly when the equity curve
    never decreases; a run over at least one bar has a [max_drawdown]. *)
Theorem drawdown_nonpositive
        (IndicatorEngine : indicator -> list Q -> series)
        (s : Strategy) (prices : list bar) :
  valid s ->
  Forall (fun b => 0 < close b) prices ->
  let r := RunStructuredBacktest IndicatorEngine s prices in
  Forall (fun d => d <= 0) (drawdown r) /\
  (forall m, max_drawdown (drawdown r) = Some m ->
             m <= 0 /\ (m == 0 <-> nondecreasing (equity r))) /\
  (prices <> [] -> exists m, max_drawdown (drawdown r) = Some m).
Proof.
  intros (_ & Hcash & _ & Hfee) Hprices r. subst r.
  unfold RunStructuredBacktest, result_of. simpl.
  pose proof (ticks_length IndicatorEngine s prices) as Hlen.
  destruct (ticks IndicatorEngine s prices) as [|t rest] eqn:Et.
  - simpl. split; [constructor|]. split; [discriminate|].
    intros Hne. destruct prices; [contradiction | discriminate].
  - rewrite simulate_cons. simpl equity_curve.
    assert (Hin : In (price t) prices).
    { unfold ticks in Et. exact (ticks_of_cons_inv _ _ _ Et). }
    assert (Hv : 0 < equity_of (fst (step (fee_rate s) (start_account (initial_cash s)) t))
                               (price t)).
    { apply first_equity_positive; try assumption.
      rewrite Forall_forall in Hprices. apply Hprices, Hin. }
    destruct (drawdown_series_facts
                (equity_curve (simulate (fee_rate s)
                   (fst (step (fee_rate s) (start_account (initial_cash s)) t)) rest)) Hv)
      as (Hall & m & Hm & Hle & Hiff).
    split; [exact Hall|]. split.
    + intros m' Hm'. rewrite Hm in Hm'. injection Hm' as <-. split; assumption.
    + intros _. exists m. exact Hm.
Qed.

End DrawdownProperties.

Section MetricsProperties.
Import Backend.
Local Open Scope Q_scope.

Variable profit_factor_sentinel : Q.
Variable sqrt : Q -> Q.

Lemma no_losing_trades (trades : list trade) :
  Forall (fun t => 0 <= realized_return t) trades -> losses trades = [].
Proof.
  unfold losses. induction 1 as [|t rest Ht _ IH]; simpl; [reflexivity|].
  unfold losing at 1.
  destruct (Qlt_bool (realized_return t) 0) eqn:E; [|exact IH].
  apply Qlt_bool_iff in E. exfalso. exact (Qlt_not_le _ _ E Ht).
Qed.

Lemma losses_negative (trades : list trade) :
  Forall (fun r => r < 0) (losses trades).
Proof.
  unfold losses. induction trades as [|t rest IH]; simpl; [constructor|].
  destruct (losing t) eqn:E; simpl; [|exact IH].
  constructor; [|exact IH]. apply Qlt_bool_iff. exact E.
Qed.

Lemma Qsum_negative (l : list Q) :
  l <> [] -> Forall (fun r => r < 0) l -> Qsum l < 0.
Proof.
  intros Hne H. induction H as [|x rest Hx Hrest IH]; [contradiction|].
  simpl. destruct rest as [|y rest'].
  - simpl. lra.
  - assert (Qsum (y :: rest') < 0) by (apply IH; discriminate). lra.
Qed.

Lemma fdiv_finite (a b : Q) : ~ b == 0 -> fdiv a b = Finite (a / b).
Proof.
  intros H. unfold fdiv. destruct (Qeq_bool b 0) eqn:E; [|reflexivity].
  apply Qeq_bool_iff in E. contradiction.
Qed.

(** [profit_factor] is a finite number on every trade log. *)
Lemma profit_factor_finite (trades : list trade) :
  exists q, profit_factor profit_factor_sentinel trades = Finite q.
Proof.
  unfold profit_factor.
  pose proof (losses_negative trades) as Hneg.
  destruct (losses trades) as [|l ls] eqn:E.
  - eexists. reflexivity.
  - eexists. apply fdiv_finite.
    assert (Hs : Qsum (l :: ls) < 0) by (apply Qsum_negative; [discriminate | exact Hneg]).
    apply Qabs_case; intros; lra.
Qed.

(** C5. A trade log with at least one trade and no losing trade has the
    sentinel, a finite number, as its [profit_factor]; [win_rate] is 0 on
    an empty log, the average winning (losing) trade is 0 when no trade won
    (lost), and the Sharpe and Sortino ratios are 0 when the variance in
    their denominator is 0. *)
Theorem degenerate_metrics (trades : list trade) (returns : list Q) :
  (trades <> [] ->
   Forall (fun t => 0 <= realized_return t) trades ->
   profit_factor profit_factor_sentinel trades = Finite profit_factor_sentinel) /\
  (total_trades trades = 0%nat -> win_rate trades = Finite 0) /\
  (List.length (wins trades) = 0%nat -> avg_winning_trade trades = Finite 0) /\
  (List.length (losses trades) = 0%nat -> avg_losing_trade trades = Finite 0) /\
  (variance returns == 0 -> sharpe_ratio sqrt returns = Finite 0) /\
  (variance (filter (fun r => Qlt_bool r 0) returns) == 0 ->
   sortino_ratio sqrt returns = Finite 0).
Proof.
  repeat split.
  - intros _ H. unfold profit_factor. rewrite (no_losing_trades H). reflexivity.
  - unfold total_trades. destruct trades; [reflexivity | discriminate].
  - unfold avg_winning_trade. destruct (wins trades); [reflexivity | discriminate].
  - unfold avg_losing_trade. destruct (losses trades); [reflexivity | discriminate].
  - intros H. unfold sharpe_ratio. apply Qeq_bool_iff in H. rewrite H. reflexivity.
  - intros H. unfold sortino_ratio. apply Qeq_bool_iff in H. rewrite H. reflexivity.
Qed.

End MetricsProperties.

(** ** Instances *)

Section PipelineInstances.
Import Backend.
Local Open Scope Q_scope.

Lemma drawdown_nonpositive_witness :
  Forall (fun d => d <= 0)
         (drawdown (RunStructuredBacktest Examples.sma2_engine Examples.crossover
                                          Examples.six_bars)).
Proof.
  refine (proj1 (@drawdown_nonpositive Examples.sma2_engine Examples.crossover
                                       Examples.six_bars _ _)).
  - unfold valid. simpl. repeat split; easy.
  - unfold Examples.six_bars. repeat constructor.
Defined.

Lemma degenerate_metrics_witness :
  profit_factor 1000000 Examples.two_gains = Finite 1000000.
Proof.
  refine (proj1 (@degenerate_metrics 1000000 (fun q => q) Examples.two_gains []) _ _).
  - discriminate.
  - unfold Examples.two_gains. repeat constructor; simpl; easy.
Defined.

End PipelineInstances.

(* ===================================================================== *)
(** * Further properties of the pages *)
(* ===================================================================== *)

Section SubmitProperties.
Import JS.
Local Open Scope js_scope.
Context {N : JSNumber}.

Lemma trimEnd_empty (s : jsstring) : trimEnd s = Empty <-> blank s.
Proof.
  unfold blank. induction s as [|c rest IH]; simpl.
  - split; [constructor | reflexivity].
  - destruct (trimEnd rest) as [|k kept] eqn:E.
    + destruct (is_space c) eqn:Hc.
      * split; [|reflexivity]. intros _. constructor; [exact Hc | apply IH; reflexivity].
      * split; [discriminate|]. intros H. inversion H. congruence.
    + split; [discriminate|]. intros H. inversion H as [|? ? _ Hrest].
      apply IH in Hrest. discriminate.
Qed.

Lemma trimStart_first (s : jsstring) :
  (trimStart s = Empty /\ blank s) \/
  (exists c rest, trimStart s = Unit c rest /\ is_space c = false /\ ~ blank s).
Proof.
  unfold blank. induction s as [|c rest IH]; simpl.
  - left. split; [reflexivity | constructor].
  - destruct (is_space c) eqn:Hc.
    + destruct IH as [[E B]|(c' & r' & E & Hc' & B)].
      * left. split; [exact E | constructor; assumption].
      * right. exists c', r'. repeat split; try assumption.
        intros H. inversion H. contradiction.
    + right. exists c, rest. repeat split; try assumption.
      intros H. inversion H. congruence.
Qed.

Lemma trim_empty (s : jsstring) : trim s = Empty <-> blank s.
Proof.
  unfold trim. destruct (trimStart_first s) as [[E B]|(c & rest & E & Hc & B)]; rewrite E.
  - simpl. tauto.
  - split; [|intros H; contradiction].
    intros H. apply trimEnd_empty in H. unfold blank in H. simpl in H.
    inversion H. congruence.
Qed.

(** X1. On the chat page a submit returns early, sending nothing and
    leaving the page as it is, exactly when the input consists of white
    space only (the empty input included). *)
Theorem blank_submit_is_dropped (now : Z) (st : ChatPage.state) :
  (ChatPage.handleSubmit_send now st = None <-> blank (ChatPage.nlInput st)) /\
  (blank (ChatPage.nlInput st) -> ChatPage.step st (ChatPage.Submit now) = st).
Proof.
  assert (H : ChatPage.handleSubmit_send now st = None <-> blank (ChatPage.nlInput st)).
  { unfold ChatPage.handleSubmit_send. rewrite <- trim_empty.
    destruct (jsstring_eqb_spec (trim (ChatPage.nlInput st)) Empty) as [E|E].
    - tauto.
    - split; [discriminate | contradiction]. }
  split; [exact H|].
  intros B. apply H in B. simpl. rewrite B. reflexivity.
Qed.

(** X2. Whenever the Send button is enabled, a submit does post a request;
    the page is then loading with an empty input, both the input and the
    button are disabled, no results are on screen, and [data] is what it
    was. *)
Theorem enabled_send_posts (now : Z) (st : ChatPage.state) :
  ChatPage.send_disabled st = false ->
  exists st' body,
    ChatPage.handleSubmit_send now st = Some (st', body) /\
    ChatPage.loading st' = true /\
    ChatPage.nlInput st' = Empty /\
    ChatPage.input_disabled st' = true /\
    ChatPage.send_disabled st' = true /\
    ChatPage.results_visible st' = false /\
    ChatPage.data st' = ChatPage.data st /\
    ChatPage.timeouts st' = ChatPage.timeouts st.
Proof.
  unfold ChatPage.send_disabled. intros H.
  apply orb_false_iff in H as [_ H].
  unfold ChatPage.handleSubmit_send. rewrite H.
  eexists. eexists. split; [reflexivity|].
  repeat split; reflexivity.
Qed.

(** X3. Whatever comes back (a rejected fetch, a [null] body, a
    clarification, an error, results), handling it clears [loading], leaves
    the input alone and appends exactly one message, from the assistant,
    stamped with the time of the response; a rejected fetch or a [null] body
    appends the connection error and changes nothing else. *)
Theorem every_outcome_answers (now : Z) (r : ChatPage.fetched) (st : ChatPage.state) :
  let st' := ChatPage.handleSubmit_receive now r st in
  (exists m,
      ChatPage.chatHistory st' = (ChatPage.chatHistory st ++ [m])%list /\
      ChatPage.role m = ChatPage.assistant /\
      ChatPage.timestamp m = now) /\
  ChatPage.loading st' = false /\
  ChatPage.nlInput st' = ChatPage.nlInput st /\
  (r = ChatPage.Rejected \/ r = ChatPage.Resolved JNull ->
   st' = ChatPage.setLoading false (ChatPage.appendMessage (ChatPage.connection_error now) st)).
Proof.
  intros st'. subst st'.
  destruct (receive_cases now r st) as (m & Hr & Ht & Hcases).
  split; [|split; [|split]].
  - exists m. split; [|split; assumption].
    destruct Hcases as [E|[E|(json & _ & _ & E)]]; rewrite E; reflexivity.
  - destruct Hcases as [E|[E|(json & _ & _ & E)]]; rewrite E; reflexivity.
  - destruct Hcases as [E|[E|(json & _ & _ & E)]]; rewrite E; reflexivity.
  - intros [->| ->]; reflexivity.
Qed.

End SubmitProperties.


Section SessionProperties.
Import JS.
Local Open Scope js_scope.
Context {N : JSNumber}.

Lemma takes_turns_snoc (l : list ChatPage.Role) :
  forall (e r d : ChatPage.Role),
    l <> [] ->
    Session.takes_turns e l = true ->
    r <> last l d ->
    Session.takes_turns e (l ++ [r]) = true.
Proof.
  induction l as [|x rest IH]; intros e r d Hne Hl Hr; [contradiction|].
  destruct rest as [|y rest'].
  - simpl in *. destruct e, x, r; try discriminate; try reflexivity; contradiction.
  - change ((x :: y :: rest') ++ [r])%list with (x :: ((y :: rest') ++ [r]))%list.
    change (last (x :: y :: rest') d) with (last (y :: rest') d) in Hr.
    change (Session.takes_turns e (x :: y :: rest'))
      with (match e, x with
            | ChatPage.assistant, ChatPage.assistant =>
                Session.takes_turns ChatPage.user (y :: rest')
            | ChatPage.user, ChatPage.user =>
                Session.takes_turns ChatPage.assistant (y :: rest')
            | _, _ => false
            end) in Hl.
    change (Session.takes_turns e (x :: ((y :: rest') ++ [r]))%list)
      with (match e, x with
            | ChatPage.assistant, ChatPage.assistant =>
                Session.takes_turns ChatPage.user ((y :: rest') ++ [r])%list
            | ChatPage.user, ChatPage.user =>
                Session.takes_turns ChatPage.assistant ((y :: rest') ++ [r])%list
            | _, _ => false
            end).
    destruct e, x; try discriminate;
      apply (IH _ r d); (discriminate || assumption).
Qed.

Lemma start_consistent (now : Z) : Session.consistent (Session.start now).
Proof. split; [reflexivity|]. left. repeat split. Qed.

Lemma roles_snoc (st : ChatPage.state) (m : ChatPage.ChatMessage) :
  map ChatPage.role (ChatPage.chatHistory st ++ [m])
  = (map ChatPage.role (ChatPage.chatHistory st) ++ [ChatPage.role m])%list.
Proof. apply map_app. Qed.

Lemma consistent_nonempty (s : Session.session) :
  Session.consistent s -> Session.roles s <> [].
Proof.
  intros [_ [(_ & _ & H)|(_ & _ & H)]] E; rewrite E in H; discriminate.
Qed.

Lemma advance_consistent (s : Session.session) (e : ChatPage.event) :
  Session.consistent s -> Session.enabled s e = true ->
  Session.consistent (Session.advance s e).
Proof.
  intros C En.
  pose proof (consistent_nonempty C) as Hne.
  destruct C as [T C]. unfold Session.consistent, Session.roles in *.
  destruct e as [v|now|now r|]; simpl in En.
  - (* typing *)
    split; [exact T | exact C].
  - (* submit *)
    unfold ChatPage.input_disabled in En. apply negb_true_iff in En.
    destruct C as [(L & F & La)|(L & _)]; [|congruence].
    unfold Session.advance; simpl.
    unfold ChatPage.handleSubmit_send.
    destruct (eqb (trim (ChatPage.nlInput (Session.page s))) Empty).
    + simpl. split; [exact T|]. left. repeat split; assumption.
    + simpl. rewrite map_app. simpl. split.
      * apply (@takes_turns_snoc _ _ _ ChatPage.user Hne T). rewrite La. discriminate.
      * right. rewrite last_last, F. repeat split.
  - (* response *)
    apply Nat.ltb_lt in En.
    destruct C as [(_ & F & _)|(L & F & La)]; [lia|].
    destruct (every_outcome_answers now r (Session.page s))
      as ((m & Hm & Hr & _) & Hl & _).
    unfold Session.advance. cbn [Session.page Session.in_flight].
    change (ChatPage.step (Session.page s) (ChatPage.Response now r))
      with (ChatPage.handleSubmit_receive now r (Session.page s)).
    cbv zeta in Hm, Hl. rewrite Hm, Hl, map_app. cbn [map]. rewrite Hr. split.
    + apply (@takes_turns_snoc _ _ _ ChatPage.assistant Hne T). rewrite La. discriminate.
    + left. rewrite last_last, F. repeat split.
  - (* timer *)
    unfold Session.advance; simpl. unfold ChatPage.timeout_fires.
    destruct (ChatPage.timeouts (Session.page s)); simpl; split; assumption.
Qed.

Lemma play_consistent (events : list ChatPage.event) (s : Session.session) :
  Session.consistent s -> Session.admissible s events = true ->
  Session.consistent (Session.play s events).
Proof.
  unfold Session.play. revert s.
  induction events as [|e rest IH]; intros s C A; simpl in *; [exact C|].
  apply andb_true_iff in A as [En A].
  apply IH; [apply advance_consistent; assumption | exact A].
Qed.

Lemma last_default (A : Type) (l : list A) (d d' : A) :
  l <> [] -> last l d = last l d'.
Proof.
  induction l as [|x rest IH]; intros Hne; [contradiction|].
  destruct rest as [|y rest']; [reflexivity|].
  change (last (x :: y :: rest') d) with (last (y :: rest') d).
  change (last (x :: y :: rest') d') with (last (y :: rest') d').
  apply IH. discriminate.
Qed.

(** X4. In a session that starts from the initial page and in which the
    browser delivers only the events the page enables, the chat always
    opens with the assistant and then strictly takes turns; at most one
    request is in flight; and the page is loading exactly when one request
    is in flight, which is exactly when the last message is the user's. *)
Theorem session_takes_turns (now : Z) (events : list ChatPage.event) :
  Session.admissible (Session.start now) events = true ->
  let s := Session.play (Session.start now) events in
  Session.takes_turns ChatPage.assistant (Session.roles s) = true /\
  Session.in_flight s <= 1 /\
  (ChatPage.loading (Session.page s) = true <-> Session.in_flight s = 1) /\
  (ChatPage.loading (Session.page s) = true <->
   last (Session.roles s) ChatPage.assistant = ChatPage.user).
Proof.
  intros A s.
  destruct (play_consistent events (start_consistent now) A) as [T C].
  fold s in T, C. split; [exact T|].
  destruct C as [(L & F & La)|(L & F & La)]; rewrite L, F.
  - assert (Hne : Session.roles s <> []) by (intros E; rewrite E in La; discriminate).
    rewrite (@last_default _ _ ChatPage.assistant ChatPage.user Hne), La.
    repeat split; try lia; try discriminate.
  - repeat split; try lia; congruence.
Qed.

End SessionProperties.

Section ResultProperties.
Import JS.
Local Open Scope js_scope.
Context {N : JSNumber}.

Lemma timeout_fires_cons (st : ChatPage.state) (j : json) (rest : list json) :
  ChatPage.timeouts st = j :: rest ->
  ChatPage.data (ChatPage.timeout_fires st) = j /\
  ChatPage.processingBacktest (ChatPage.timeout_fires st) = false /\
  ChatPage.timeouts (ChatPage.timeout_fires st) = rest /\
  ChatPage.loading (ChatPage.timeout_fires st) = ChatPage.loading st /\
  ChatPage.chatHistory (ChatPage.timeout_fires st) = ChatPage.chatHistory st.
Proof.
  intros E. unfold ChatPage.timeout_fires. rewrite E. repeat split.
Qed.

Lemma timeouts_fire_all (older : list json) :
  forall (st : ChatPage.state) (j : json),
    ChatPage.timeouts st = (older ++ [j])%list ->
    let st' := ChatPage.timeouts_fire (S (List.length older)) st in
    ChatPage.data st' = j /\
    ChatPage.processingBacktest st' = false /\
    ChatPage.timeouts st' = [] /\
    ChatPage.loading st' = ChatPage.loading st /\
    ChatPage.chatHistory st' = ChatPage.chatHistory st.
Proof.
  induction older as [|o older IH]; intros st j E.
  - simpl. exact (timeout_fires_cons st E).
  - destruct (timeout_fires_cons st E) as (_ & _ & Hrest & Hl & Hc).
    specialize (IH (ChatPage.timeout_fires st) j Hrest).
    change (ChatPage.timeouts_fire (S (List.length (o :: older))) st)
      with (ChatPage.timeouts_fire (S (List.length older)) (ChatPage.timeout_fires st)).
    cbv zeta in IH |- *. rewrite <- Hl, <- Hc. exact IH.
Qed.

(** X5. A response that is neither [null], nor a clarification, nor an
    error is not shown at once: the page goes into [processingBacktest] with
    no results on screen.  Once the pending timers have all run, [data] is
    that response, whatever was queued before it, and the results are on
    screen exactly if the response is truthy. *)
Theorem results_after_timers (now : Z) (json : JS.json) (st : ChatPage.state) :
  prop json "conversation" <> None ->
  ChatPage.is_clarification json = false ->
  truthy (opt_prop json "error") = false ->
  let st1 := ChatPage.handleSubmit_receive now (ChatPage.Resolved json) st in
  let st2 := ChatPage.timeouts_fire (List.length (ChatPage.timeouts st1)) st1 in
  ChatPage.data st1 = ChatPage.data st /\
  ChatPage.processingBacktest st1 = true /\
  ChatPage.results_visible st1 = false /\
  ChatPage.data st2 = json /\
  ChatPage.timeouts st2 = [] /\
  ChatPage.results_visible st2 = truthy json.
Proof.
  intros Hn Hc He st1.
  assert (E1 : st1 = ChatPage.setLoading false
                       (ChatPage.setTimeout json
                          (ChatPage.setProcessingBacktest true
                             (ChatPage.appendMessage
                                {| ChatPage.role := ChatPage.assistant;
                                   ChatPage.content :=
                                     JStr "Great! I've run your backtest. Here are the results:";
                                   ChatPage.timestamp := now |} st)))).
  { subst st1. unfold ChatPage.handleSubmit_receive.
    destruct (prop json "conversation"); [|contradiction].
    unfold ChatPage.on_json. rewrite Hc, He. reflexivity. }
  assert (Et : ChatPage.timeouts st1 = (ChatPage.timeouts st ++ [json])%list)
    by (rewrite E1; reflexivity).
  intros st2. subst st2. rewrite Et, length_app, Nat.add_comm. simpl List.length.
  destruct (@timeouts_fire_all (ChatPage.timeouts st) st1 json Et) as (Hd & Hp & Ht & Hl & _).
  cbv zeta in Hd, Hp, Ht, Hl.
  change (1 + List.length (ChatPage.timeouts st))%nat
    with (S (List.length (ChatPage.timeouts st))).
  unfold ChatPage.results_visible at 2. rewrite Hd, Hp, Ht, Hl.
  rewrite E1. simpl. repeat split.
Qed.

(** ** What is drawn *)

Lemma get_chat_chartData (d : json) (k : jsstring) :
  Charts.get (ChatPage.chartData d) k = opt_prop (opt_prop d "chart_data") k.
Proof.
  unfold ChatPage.chartData, Charts.get.
  destruct (opt_prop d "chart_data"); reflexivity.
Qed.

Lemma get_page_chartData (d : json) (k : jsstring) :
  Charts.get (Page.chartData d) k = opt_prop (opt_prop d "chart_data") k.
Proof.
  unfold Page.chartData, Charts.get.
  destruct (truthy d) eqn:Td; simpl.
  - destruct (opt_prop d "chart_data") as [| |b|n|s|l|f] eqn:E; simpl; try reflexivity.
    + destruct b; reflexivity.
    + destruct (num_falsy n); reflexivity.
    + destruct (eqb s Empty); reflexivity.
  - destruct d as [| |b|n|s|l|f]; simpl in Td; try discriminate; try reflexivity.
Qed.

Lemma all_charts_ext (cd cd' : json) :
  (forall k, Charts.get cd k = Charts.get cd' k) ->
  Charts.all_charts cd = Charts.all_charts cd'.
Proof.
  intros H.
  unfold Charts.all_charts, Charts.equityChart, Charts.drawdownChart,
    Charts.indicatorCharts, Charts.signalCharts.
  rewrite !H. reflexivity.
Qed.

(** X9. From one and the same response the two pages build the same list
    of charts, although they compute [chartData] differently. *)
Theorem pages_build_same_charts (d : json) :
  Charts.all_charts (ChatPage.chartData d) = Charts.all_charts (Page.chartData d).
Proof.
  apply all_charts_ext. intros k.
  rewrite get_chat_chartData, get_page_chartData. reflexivity.
Qed.

Lemma no_charts_without_fields (cd : json) :
  (forall k, Charts.get cd k = JUndefined) -> Charts.all_charts cd = [].
Proof.
  intros H. rewrite (@all_charts_ext cd (JObj [])); [reflexivity|].
  intros k. rewrite H. reflexivity.
Qed.

(** X10. A page draws a chart only if [chart_data] is an object: when the
    field is missing, [null], a number, a string, a boolean or an array, no
    chart at all is built, on either page. *)
Theorem charts_need_object (d : json) :
  (Charts.all_charts (ChatPage.chartData d) <> [] \/
   Charts.all_charts (Page.chartData d) <> []) ->
  exists fields, opt_prop d "chart_data" = JObj fields.
Proof.
  rewrite <- pages_build_same_charts. intros H.
  assert (H' : Charts.all_charts (ChatPage.chartData d) <> []) by tauto.
  clear H. destruct (opt_prop d "chart_data") as [| |b|n|s|l|f] eqn:E;
    try (exfalso; apply H'; apply no_charts_without_fields; intros k;
         rewrite get_chat_chartData, E; reflexivity).
  exists f. reflexivity.
Qed.

(** X7. The series drawn are those of [chartData], each once and in order:
    the equity curve and the drawdown when present together with the dates,
    then one dataset per entry of [indicators] and one per entry of
    [signals], each labelled by its key and carrying that entry's values. *)
Theorem every_series_drawn_once (cd : json) :
  flat_map (fun c => map (fun ds => (Charts.label ds, Charts.data ds)) (Charts.datasets c))
           (Charts.all_charts cd)
  = ((if truthy (Charts.get cd "dates") && truthy (Charts.get cd "equity")
      then [ ("Equity Curve", Charts.get cd "equity") ] else []) ++
     (if truthy (Charts.get cd "dates") && truthy (Charts.get cd "drawdown")
      then [ ("Drawdown (%)", Charts.get cd "drawdown") ] else []) ++
     (if truthy (Charts.get cd "indicators")
      then Object_entries (Charts.get cd "indicators") else []) ++
     (if truthy (Charts.get cd "signals")
      then Object_entries (Charts.get cd "signals") else []))%list.
Proof.
  unfold Charts.all_charts. rewrite !flat_map_app.
  f_equal; [|f_equal; [|f_equal]].
  - unfold Charts.equityChart.
    destruct (truthy (Charts.get cd "dates")), (truthy (Charts.get cd "equity")); reflexivity.
  - unfold Charts.drawdownChart.
    destruct (truthy (Charts.get cd "dates")), (truthy (Charts.get cd "drawdown")); reflexivity.
  - unfold Charts.indicatorCharts.
    destruct (truthy (Charts.get cd "indicators")); [|reflexivity]. simpl.
    induction (Object_entries (Charts.get cd "indicators")) as [|[k v] rest IH];
      [reflexivity|]. simpl. rewrite IH. reflexivity.
  - unfold Charts.signalCharts.
    destruct (truthy (Charts.get cd "signals")); [|reflexivity]. simpl.
    induction (Object_entries (Charts.get cd "signals")) as [|[k v] rest IH];
      [reflexivity|]. simpl. rewrite IH. reflexivity.
Qed.

(** ** The plain page *)

(** X6. The plain page has no error branch.  While the request is in
    flight, and after a rejected fetch, the guard of the results block is
    false.  Whatever the response is, it becomes [data], and the guard
    [!loading && data] then holds exactly when the response is truthy.  A
    response without [metrics] fills the thirteen metric cells with "0.00",
    and a response without [chart_data] gives no chart: "{error: ...}" is
    displayed as an all-zero result. *)
Theorem plain_page_shows_any_response (st : Page.state) (json : JS.json) :
  let sent := fst (Page.handleSubmit_send st) in
  let shown := Page.handleSubmit_receive (Page.Resolved json) sent in
  Page.results_visible sent = false /\
  Page.results_visible (Page.handleSubmit_receive Page.Rejected sent) = false /\
  Page.data shown = json /\
  Page.results_visible shown = truthy json /\
  List.length (Charts.metric_cells (Page.data shown)) = 13 /\
  (opt_prop json "metrics" = JUndefined ->
   Forall (fun cell => snd cell = Some "0.00") (Charts.metric_cells (Page.data shown))) /\
  (opt_prop json "chart_data" = JUndefined ->
   Charts.all_charts (Page.chartData (Page.data shown)) = []).
Proof.
  intros sent shown. subst shown sent. simpl Page.data.
  split; [reflexivity|]. split; [reflexivity|]. split; [reflexivity|].
  split; [reflexivity|]. split; [reflexivity|]. split.
  - intros Hm. apply absent_metrics_cells, Hm.
  - intros Hc. apply no_charts_without_fields. intros k.
    rewrite get_page_chartData, Hc. reflexivity.
Qed.

(** ** The formatter *)

(** X8. [formatValue] returns a string exactly when the value is
    [undefined] or a number, or when the format is "integer", the value is
    not [null] and its conversion to a string does not throw; in every other
    case it throws.  With the formats "currency", "percent" and "number" a
    [null] or string metric breaks the rendering of the grid. *)
Theorem formatValue_succeeds (v : json) (f : jsstring) :
  (exists text, Charts.formatValue v f = Some text) <->
  (v = JUndefined \/ (exists n, v = JNum n) \/
   (f = "integer" /\ v <> JNull /\ exists text, toString v = Some text)).
Proof.
  unfold Charts.formatValue.
  destruct (jsstring_eqb_spec f "currency") as [Ec|Ec];
    [|destruct (jsstring_eqb_spec f "percent") as [Ep|Ep];
      [|destruct (jsstring_eqb_spec f "integer") as [Ei|Ei]]];
    try subst f;
    destruct v as [| |b|n|s|l|fs];
    (split;
     [ intros H;
       first [ left; reflexivity
             | right; left; eexists; reflexivity
             | right; right; split; [reflexivity | split; [discriminate | exact H]]
             | destruct H as [text H]; discriminate H ]
     | intros [H|[[n' H]|(H1 & H2 & H3)]];
       first [ eexists; reflexivity
             | exact H3
             | discriminate H
             | discriminate H1
             | congruence ] ]).
Qed.

End ResultProperties.

Section DataProperties.
Import JS.
Local Open Scope js_scope.
Context {N : JSNumber}.

(** X11. What the request says about a message is its role and its
    content and nothing else: two messages give the same history entry
    exactly when they agree on both, whatever their time stamps; and both
    can be read back from the entry. *)
Theorem history_entry_keeps_role_and_content (m m' : ChatPage.ChatMessage) :
  (ChatPage.history_entry m = ChatPage.history_entry m' <->
   ChatPage.role m = ChatPage.role m' /\ ChatPage.content m = ChatPage.content m') /\
  prop (ChatPage.history_entry m) "role" = Some (JStr (ChatPage.Role_name (ChatPage.role m))) /\
  prop (ChatPage.history_entry m) "content" = Some (ChatPage.content m).
Proof.
  split; [|split; reflexivity].
  unfold ChatPage.history_entry. split.
  - intros E. injection E as Er Ec. split; [|exact Ec].
    destruct (ChatPage.role m), (ChatPage.role m'); (reflexivity || discriminate Er).
  - intros [-> ->]. reflexivity.
Qed.

Lemma step_data (Q : json -> Prop) (st : ChatPage.state) (e : ChatPage.event) :
  (ChatPage.data st = JNull \/ Q (ChatPage.data st)) ->
  Forall Q (ChatPage.timeouts st) ->
  (forall now json, e = ChatPage.Response now (ChatPage.Resolved json) ->
                    ChatPage.taken_as_results json = true -> Q json) ->
  (ChatPage.data (ChatPage.step st e) = JNull \/ Q (ChatPage.data (ChatPage.step st e))) /\
  Forall Q (ChatPage.timeouts (ChatPage.step st e)).
Proof.
  intros Hd Ht HQ. destruct e as [v|now|now r|]; cbn [ChatPage.step].
  - split; assumption.
  - unfold ChatPage.handleSubmit_send.
    destruct (eqb (trim (ChatPage.nlInput st)) Empty); split; assumption.
  - destruct (receive_cases now r st) as (m & _ & _ & [E|[E|(json & Er & Hs & E)]]);
      rewrite E; simpl.
    + split; assumption.
    + split; [left; reflexivity | assumption].
    + split; [assumption|].
      apply Forall_app. split; [assumption|]. constructor; [|constructor].
      apply (HQ now json); [rewrite Er; reflexivity | exact Hs].
  - unfold ChatPage.timeout_fires.
    destruct (ChatPage.timeouts st) as [|j rest] eqn:E;
      [split; [assumption | rewrite E; constructor]|].
    simpl. inversion Ht. split; [right|]; assumption.
Qed.

Lemma run_data (Q : json -> Prop) (events : list ChatPage.event) :
  forall st : ChatPage.state,
    (ChatPage.data st = JNull \/ Q (ChatPage.data st)) ->
    Forall Q (ChatPage.timeouts st) ->
    (forall now json, In (ChatPage.Response now (ChatPage.Resolved json)) events ->
                      ChatPage.taken_as_results json = true -> Q json) ->
    ChatPage.data (ChatPage.run st events) = JNull \/
    Q (ChatPage.data (ChatPage.run st events)).
Proof.
  unfold ChatPage.run.
  induction events as [|e rest IH]; intros st Hd Ht HQ; simpl; [exact Hd|].
  destruct (@step_data Q st e Hd Ht) as [Hd' Ht'].
  - intros now json -> Hs. apply (HQ now json); [left; reflexivity | exact Hs].
  - apply IH; [exact Hd' | exact Ht' |].
    intros now json Hin Hs. apply (HQ now json); [right; exact Hin | exact Hs].
Qed.

Lemma taken_as_results_fields (json : JS.json) :
  ChatPage.taken_as_results json = true ->
  truthy (opt_prop json "error") = false /\
  truthy (opt_prop json "conversation") && truthy (opt_prop json "needs_clarification")
  = false.
Proof.
  unfold ChatPage.taken_as_results, ChatPage.is_clarification.
  destruct (prop json "conversation"); [|discriminate].
  intros H. apply andb_true_iff in H as [H1 H2].
  apply negb_true_iff in H1. apply negb_true_iff in H2. split; assumption.
Qed.

(** X12. Whatever happens to the chat page, in whatever order, [data] is
    either [null] or a response that was received, whose [error] field is
    falsy and whose [conversation] and [needs_clarification] fields are not
    both truthy: a failed fetch, a response with a truthy [error] and a
    response that the page treats as a clarification are never stored as
    results. *)
Theorem data_is_a_received_result (now0 : Z) (events : list ChatPage.event) :
  let st := ChatPage.run (ChatPage.initial now0) events in
  ChatPage.data st = JNull \/
  ((exists now, In (ChatPage.Response now (ChatPage.Resolved (ChatPage.data st))) events) /\
   truthy (opt_prop (ChatPage.data st) "error") = false /\
   truthy (opt_prop (ChatPage.data st) "conversation") &&
   truthy (opt_prop (ChatPage.data st) "needs_clarification") = false).
Proof.
  intros st. subst st.
  apply (@run_data
           (fun j =>
              (exists now, In (ChatPage.Response now (ChatPage.Resolved j)) events) /\
              truthy (opt_prop j "error") = false /\
              truthy (opt_prop j "conversation") && truthy (opt_prop j "needs_clarification")
              = false)).
  - left. reflexivity.
  - constructor.
  - intros now json Hin Hs. split; [exists now; exact Hin|].
    apply taken_as_results_fields, Hs.
Qed.

Lemma step_processing (st : ChatPage.state) (e : ChatPage.event) :
  (ChatPage.processingBacktest st = true -> ChatPage.timeouts st <> []) ->
  ChatPage.processingBacktest (ChatPage.step st e) = true ->
  ChatPage.timeouts (ChatPage.step st e) <> [].
Proof.
  intros H. destruct e as [v|now|now r|]; cbn [ChatPage.step].
  - exact H.
  - unfold ChatPage.handleSubmit_send.
    destruct (eqb (trim (ChatPage.nlInput st)) Empty); exact H.
  - destruct (receive_cases now r st) as (m & _ & _ & [E|[E|(json & _ & _ & E)]]);
      rewrite E; simpl; try exact H.
    intros _ E'. apply app_eq_nil in E' as [_ E']. discriminate E'.
  - unfold ChatPage.timeout_fires.
    destruct (ChatPage.timeouts st) as [|j rest] eqn:E.
    + intros Hp. specialize (H Hp). congruence.
    + simpl. discriminate.
Qed.

(** X13. The processing dots never hang: after any sequence of events
    from the initial page, whenever [processingBacktest] is set a timer is
    pending whose callback clears it. *)
Theorem processing_has_pending_timer (now0 : Z) (events : list ChatPage.event) :
  let st := ChatPage.run (ChatPage.initial now0) events in
  ChatPage.processingBacktest st = true ->
  ChatPage.timeouts st <> [] /\
  ChatPage.processingBacktest (ChatPage.timeout_fires st) = false.
Proof.
  intros st. subst st.
  assert (H : forall st : ChatPage.state,
             (ChatPage.processingBacktest st = true -> ChatPage.timeouts st <> []) ->
             ChatPage.processingBacktest (ChatPage.run st events) = true ->
             ChatPage.timeouts (ChatPage.run st events) <> []).
  { unfold ChatPage.run. induction events as [|e rest IH]; intros st Hst; simpl.
    - exact Hst.
    - apply IH. apply step_processing. exact Hst. }
  intros Hp. specialize (H (ChatPage.initial now0)).
  assert (Hne := H ltac:(discriminate) Hp).
  split; [exact Hne|].
  unfold ChatPage.timeout_fires.
  destruct (ChatPage.timeouts (ChatPage.run (ChatPage.initial now0) events));
    [contradiction | reflexivity].
Qed.

End DataProperties.

(** ** Instances *)

Section FurtherInstances.
Import JS.
Local Open Scope js_scope.

Lemma blank_submit_is_dropped_witness :
  ChatPage.step Examples.spaces_typed (ChatPage.Submit 5) = Examples.spaces_typed.
Proof.
  apply (proj2 (blank_submit_is_dropped 5 Examples.spaces_typed)).
  unfold blank. simpl. repeat constructor.
Defined.

Example wide_spaces_are_dropped :
  ChatPage.handleSubmit_send 5 Examples.wide_spaces_typed = None /\
  ChatPage.send_disabled Examples.wide_spaces_typed = true.
Proof. split; reflexivity. Qed.

Lemma enabled_send_posts_witness :
  exists st' body,
    ChatPage.handleSubmit_send 10 Examples.question_typed = Some (st', body) /\
    ChatPage.loading st' = true /\
    ChatPage.nlInput st' = Empty /\
    ChatPage.input_disabled st' = true /\
    ChatPage.send_disabled st' = true /\
    ChatPage.results_visible st' = false /\
    ChatPage.data st' = ChatPage.data Examples.question_typed /\
    ChatPage.timeouts st' = ChatPage.timeouts Examples.question_typed.
Proof.
  apply (@enabled_send_posts _ 10 Examples.question_typed).
  vm_compute. reflexivity.
Defined.

Lemma every_outcome_answers_witness :
  ChatPage.handleSubmit_receive 20 ChatPage.Rejected Examples.waiting_for_first_reply
  = ChatPage.setLoading false
      (ChatPage.appendMessage (ChatPage.connection_error 20)
                              Examples.waiting_for_first_reply).
Proof.
  apply (proj2 (proj2 (proj2 (every_outcome_answers 20 ChatPage.Rejected
                                Examples.waiting_for_first_reply)))).
  left. reflexivity.
Defined.

Lemma session_takes_turns_witness :
  Session.in_flight (Session.play (Session.start 0) Examples.two_exchanges) <= 1.
Proof.
  refine (proj1 (proj2 (@session_takes_turns _ 0 Examples.two_exchanges _))).
  vm_compute. reflexivity.
Defined.

Lemma results_after_timers_witness :
  ChatPage.data
    (ChatPage.timeouts_fire
       (List.length
          (ChatPage.timeouts
             (ChatPage.handleSubmit_receive 20 (ChatPage.Resolved Examples.results)
                                            Examples.waiting_for_first_reply)))
       (ChatPage.handleSubmit_receive 20 (ChatPage.Resolved Examples.results)
                                      Examples.waiting_for_first_reply))
  = Examples.results.
Proof.
  refine (proj1 (proj2 (proj2 (proj2
            (@results_after_timers _ 20 Examples.results
                                   Examples.waiting_for_first_reply _ _ _))))).
  - discriminate.
  - reflexivity.
  - reflexivity.
Defined.

Lemma plain_page_shows_any_response_witness :
  Forall (fun cell => snd cell = Some "0.00")
         (Charts.metric_cells
            (Page.data
               (Page.handleSubmit_receive (Page.Resolved Examples.failure)
                  (fst (Page.handleSubmit_send Examples.page_second_turn))))).
Proof.
  refine (proj1 (proj2 (proj2 (proj2 (proj2 (proj2
            (@plain_page_shows_any_response _ Examples.page_second_turn
                                            Examples.failure)))))) _).
  reflexivity.
Defined.

Lemma charts_need_object_witness :
  exists fields, opt_prop Examples.results "chart_data" = JObj fields.
Proof.
  apply (@charts_need_object _ Examples.results).
  left. cbv -[IntegralNumber]. discriminate.
Defined.

Lemma processing_has_pending_timer_witness :
  ChatPage.timeouts
    (ChatPage.run (ChatPage.initial 0)
       [ ChatPage.InputChange "Buy SPY when RSI < 30, sell when RSI > 70";
         ChatPage.Submit 10;
         ChatPage.Response 20 (ChatPage.Resolved Examples.results) ]) <> [].
Proof.
  refine (proj1 (@processing_has_pending_timer _ 0
            [ ChatPage.InputChange "Buy SPY when RSI < 30, sell when RSI > 70";
              ChatPage.Submit 10;
              ChatPage.Response 20 (ChatPage.Resolved Examples.results) ] _)).
  vm_compute. reflexivity.
Defined.

End FurtherInstances.
